(** * dash.py: the loader/cleaner and the aggregations of the posts dashboard

    A shallow embedding of [load_data] and of the aggregation part of [main]
    (src/dash.py).  The pandas calls whose behaviour depends on the installed
    pandas (string to datetime, string to number, the [.dt] accessor) are the
    fields of the class [Pandas]; the general theorems hold for every
    instance.  [Reference.pandas] is one executable instance, restricted to
    fixed-width ISO strings and signed decimal integers, on which the
    concrete runs are evaluated. *)

From Stdlib Require Import ZArith QArith List String Ascii Bool Lia Sorted.
Import ListNotations.
Local Open Scope string_scope.
Local Open Scope Z_scope.

Set Implicit Arguments.

(* ===================================================================== *)
(** ** Calendar arithmetic (proleptic Gregorian, as datetime / Timestamp) *)
(* ===================================================================== *)

Module Calendar.

Definition is_leap (y : Z) : bool :=
  ((y mod 4 =? 0) && negb (y mod 100 =? 0)) || (y mod 400 =? 0).

Definition days_in_month (y m : Z) : Z :=
  if m =? 2 then (if is_leap y then 29 else 28)
  else if (m =? 4) || (m =? 6) || (m =? 9) || (m =? 11) then 30
  else 31.

(** Days between 1970-01-01 and the civil date [y-m-d]. *)
Definition days_from_civil (y m d : Z) : Z :=
  let y' := if m <=? 2 then y - 1 else y in
  let era := y' / 400 in
  let yoe := y' - era * 400 in
  let mp := (m + 9) mod 12 in
  let doy := (153 * mp + 2) / 5 + d - 1 in
  let doe := yoe * 365 + yoe / 4 - yoe / 100 + doy in
  era * 146097 + doe - 719468.

(** Seconds between the epoch and the wall-clock time read as UTC. *)
Definition utc_seconds (y m d hh mm ss : Z) : Z :=
  days_from_civil y m d * 86400 + hh * 3600 + mm * 60 + ss.

Inductive day_name : Type :=
  Monday | Tuesday | Wednesday | Thursday | Friday | Saturday | Sunday.

Definition day_name_eqb (a b : day_name) : bool :=
  match a, b with
  | Monday, Monday | Tuesday, Tuesday | Wednesday, Wednesday
  | Thursday, Thursday | Friday, Friday | Saturday, Saturday
  | Sunday, Sunday => true
  | _, _ => false
  end.

(** 1970-01-01 was a Thursday. *)
Definition day_name_of (y m d : Z) : day_name :=
  match (days_from_civil y m d + 3) mod 7 with
  | 0 => Monday | 1 => Tuesday | 2 => Wednesday | 3 => Thursday
  | 4 => Friday | 5 => Saturday | _ => Sunday
  end.

End Calendar.

(* ===================================================================== *)
(** ** Values held by the data frame                                      *)
(* ===================================================================== *)

(** A cell as [pd.read_csv] hands it over: missing, or the cell's text. *)
Inductive cell : Type :=
| NaN
| Str (s : string).

(** A numeric cell after [pd.to_numeric]: float NaN, an infinity, or a
    finite number. *)
Inductive num : Type :=
| NumNaN
| Inf (negative : bool)
| Fin (q : Q).

(** [pd.Timestamp]: the wall-clock fields in the timestamp's own zone and
    that zone, [None] for a naive timestamp, [Some o] for the fixed offset
    of [o] minutes east of UTC. *)
Record Timestamp : Type := mkTimestamp {
  ts_year : Z; ts_month : Z; ts_day : Z;
  ts_hour : Z; ts_minute : Z; ts_second : Z;
  ts_tz : option Z
}.

Inductive tsval : Type :=
| NaT
| Ts (t : Timestamp).

(** The result of a call that may raise. *)
Inductive res (A : Type) : Type :=
| Ok (a : A)
| Raise.
Arguments Raise {A}.

(** The instant of a timestamp in seconds since the epoch; a naive
    timestamp is read as UTC, as [utc=True] does. *)
Definition utc_instant (t : Timestamp) : Z :=
  Calendar.utc_seconds (ts_year t) (ts_month t) (ts_day t)
                       (ts_hour t) (ts_minute t) (ts_second t)
  - 60 * match ts_tz t with Some o => o | None => 0 end.

(** Expressed in UTC: zone-aware with a zero offset. *)
Definition is_utc (t : Timestamp) : bool :=
  match ts_tz t with Some o => o =? 0 | None => false end.

(* ===================================================================== *)
(** ** The pandas calls the program relies on                             *)
(* ===================================================================== *)

Class Pandas : Type := {
  (** [pd.to_datetime(ts, format=fmt)] on one string. *)
  to_datetime_format : string -> string -> res tsval;
  (** [pd.to_datetime(ts, infer_datetime_format=True)] on one string. *)
  to_datetime_infer : string -> res tsval;
  (** One element of [pd.to_numeric(series, errors='coerce')]. *)
  to_numeric_coerce : cell -> num;
  (** Whether [.dt] is available on a column of these timestamps. *)
  dt_accessor : list Timestamp -> bool;
  (** [pd.to_datetime(series, utc=True, errors='coerce')]: per row the UTC
      instant in seconds, or [None] for NaT. *)
  to_datetime_utc_coerce : list cell -> list (option Z);
  to_datetime_utc_coerce_length :
    forall col, List.length (to_datetime_utc_coerce col) = List.length col
}.

(* ===================================================================== *)
(** ** Loader / cleaner: [load_data]                                      *)
(* ===================================================================== *)

Module Raw.
(** One line of posts.csv. *)
Record row : Type := mkRow {
  timestamp : cell;
  username : cell;
  followers_count : cell;
  media_count : cell
}.

(** The frame read from the file; the two metric columns are optional. *)
Record frame : Type := mkFrame {
  has_timestamp : bool;
  has_followers_count : bool;
  has_media_count : bool;
  rows : list row
}.
End Raw.

Inductive exn : Type :=
| ReadError (msg : string)      (* pd.read_csv raised *)
| KeyError (column : string)    (* df['timestamp'] on a frame without it *)
| AttributeError_dt.            (* .dt on a column that is not datetimelike *)

(** What [load_data] shows through streamlit. *)
Inductive st_msg : Type :=
| Write_processing                (* st.write("Processando timestamps...") *)
| Error_no_valid_timestamp        (* st.error("Nenhum timestamp válido ...") *)
| Error_load (e : exn)            (* st.error(f"Erro ao carregar dados: ...") *)
| Success_loaded (n : nat).       (* st.success(f"... {len(df_clean)} ...") *)

(** The [timestamp] column: the raw cell, overwritten by [main] with the
    UTC re-parse. *)
Inductive timestamp_cell : Type :=
| RawTs (c : cell)
| UtcTs (i : option Z).

(** The [date] column: a [datetime.date], overwritten by [main] with a
    [datetime64] at midnight. *)
Inductive date_cell : Type :=
| DateObj (y m d : Z)
| DateTime (y m d : Z).

(** A monthly period [to_period('M')], or NaT. *)
Definition period : Type := (Z * Z)%type.

Inductive periodo_name : Type := Pre_Pandemia | Pos_Pandemia.

(** One row of [df_clean]. [None] in a column means the frame does not
    have the column (yet). *)
Record Row : Type := mkRow {
  timestamp : timestamp_cell;
  username : cell;
  followers_count : option num;
  media_count : option num;
  timestamp_parsed : tsval;
  year : Z; month : Z; day : Z; hour : Z;
  weekday : Calendar.day_name;
  date : date_cell;
  ano_mes : option (option period);
  periodo : option periodo_name
}.

Definition fillna0 (n : num) : num :=
  match n with NumNaN => Fin 0 | _ => n end.

(** [safe_numeric_convert] on one element of the series:
    [pd.to_numeric(series, errors='coerce').fillna(0)].  With
    [errors='coerce'] the call does not raise on the cells of a CSV file,
    so the [except] branch is not taken. *)
Definition safe_numeric_convert {P : Pandas} (c : cell) : num :=
  fillna0 (to_numeric_coerce c).

Definition formats : list string :=
  [ "%Y-%m-%dT%H:%M:%S%z";
    "%Y-%m-%dT%H:%M:%S+0000";
    "%Y-%m-%dT%H:%M:%S";
    "%Y-%m-%d %H:%M:%S";
    "%Y-%m-%d" ].

(** The [for fmt in formats: try: return ... except: continue] loop;
    [None] when the loop falls through. *)
Fixpoint try_formats {P : Pandas} (fmts : list string) (ts : string)
  : option tsval :=
  match fmts with
  | [] => None
  | fmt :: rest =>
      match to_datetime_format fmt ts with
      | Ok v => Some v
      | Raise => try_formats rest ts
      end
  end.

Definition parse_timestamp {P : Pandas} (ts : cell) : tsval :=
  match ts with
  | NaN => NaT                                   (* pd.isna(ts) *)
  | Str s =>
      if String.eqb s "timestamp" || String.eqb s "" then NaT
      else
        match try_formats formats s with
        | Some v => v
        | None =>
            match to_datetime_infer s with
            | Ok v => v
            | Raise => NaT
            end
        end
  end.

(** [df['timestamp'] != 'timestamp'] *)
Definition not_header (r : Raw.row) : bool :=
  match Raw.timestamp r with
  | Str s => negb (String.eqb s "timestamp")
  | NaN => true
  end.

(** The frame between the numeric conversion and [dropna]. *)
Record parsed_row : Type := mkParsed {
  p_raw : Raw.row;
  p_followers_count : option num;
  p_media_count : option num;
  p_timestamp_parsed : tsval
}.

(** [if 'followers_count' in df.columns: df[...] = safe_numeric_convert(...)] *)
Definition convert_column {P : Pandas} (present : bool) (c : cell) : option num :=
  if present then Some (safe_numeric_convert c) else None.

Definition parse_row {P : Pandas} (df : Raw.frame) (r : Raw.row) : parsed_row :=
  {| p_raw := r;
     p_followers_count :=
       convert_column (Raw.has_followers_count df) (Raw.followers_count r);
     p_media_count :=
       convert_column (Raw.has_media_count df) (Raw.media_count r);
     p_timestamp_parsed := parse_timestamp (Raw.timestamp r) |}.

Definition notna (p : parsed_row) : bool :=
  match p_timestamp_parsed p with NaT => false | Ts _ => true end.

Definition stamps (ps : list parsed_row) : list Timestamp :=
  flat_map (fun p => match p_timestamp_parsed p with
                     | Ts t => [t] | NaT => [] end) ps.

(** Lines 89-94: the calendar columns, read off the timestamp in its own
    zone. *)
Definition derive (p : parsed_row) : list Row :=
  match p_timestamp_parsed p with
  | NaT => []
  | Ts t =>
      [ {| timestamp := RawTs (Raw.timestamp (p_raw p));
           username := Raw.username (p_raw p);
           followers_count := p_followers_count p;
           media_count := p_media_count p;
           timestamp_parsed := Ts t;
           year := ts_year t; month := ts_month t; day := ts_day t;
           hour := ts_hour t;
           weekday := Calendar.day_name_of (ts_year t) (ts_month t) (ts_day t);
           date := DateObj (ts_year t) (ts_month t) (ts_day t);
           ano_mes := None;
           periodo := None |} ]
  end.

Definition year_in_range (current_year : Z) (r : Row) : bool :=
  (2010 <=? year r) && (year r <=? current_year + 1).

(** Lines 100-104 on the two metric columns; the four calendar columns are
    integer columns without missing values, which the same call returns
    unchanged. *)
Definition ensure_numeric (r : Row) : Row :=
  {| timestamp := timestamp r; username := username r;
     followers_count := option_map fillna0 (followers_count r);
     media_count := option_map fillna0 (media_count r);
     timestamp_parsed := timestamp_parsed r;
     year := year r; month := month r; day := day r; hour := hour r;
     weekday := weekday r; date := date r;
     ano_mes := ano_mes r; periodo := periodo r |}.

(** [load_data], given what [pd.read_csv('posts.csv')] did and the year of
    [datetime.now()], step by step.  The first component is the frame [df]
    as line 29 leaves it, the frame that the numeric conversion (lines
    41-46) and the timestamp parse (line 79) are then applied to, [None]
    when the function is left before that line; the second component is
    what the function shows through streamlit and what it returns, [None]
    for Python's [None]. *)
Definition load_data_steps {P : Pandas}
  (current_year : Z) (csv : Raw.frame + string)
  : option (list Raw.row) * (list st_msg * option (list Row)) :=
  match csv with
  | inr msg => (None, ([Error_load (ReadError msg)], None))
  | inl df =>
      if negb (Raw.has_timestamp df)
      then (None, ([Error_load (KeyError "timestamp")], None))
      else
        let df1 := filter not_header (Raw.rows df) in
        (Some df1,
         let df2 := map (parse_row df) df1 in
         let df_clean := filter notna df2 in
         match df_clean with
         | [] => ([Write_processing; Error_no_valid_timestamp], None)
         | _ :: _ =>
             if negb (dt_accessor (stamps df_clean))
             then ([Write_processing; Error_load AttributeError_dt], None)
             else
               let derived := flat_map derive df_clean in
               let ranged := filter (year_in_range current_year) derived in
               let final := map ensure_numeric ranged in
               ([Write_processing; Success_loaded (List.length final)],
                Some final)
         end)
  end.

(** [load_data]: the streamlit messages and the frame returned. *)
Definition load_data {P : Pandas} (current_year : Z) (csv : Raw.frame + string)
  : list st_msg * option (list Row) :=
  snd (load_data_steps current_year csv).

(** The lines [load_data] keeps, told from the timestamp cell alone. *)
Definition survives {P : Pandas} (current_year : Z) (c : cell) : bool :=
  match parse_timestamp c with
  | Ts t => (2010 <=? ts_year t) && (ts_year t <=? current_year + 1)
  | NaT => false
  end.

(* ===================================================================== *)
(** ** View / aggregator: the aggregation part of [main]                  *)
(* ===================================================================== *)

Section GroupBy.
Variable K : Type.
Variable cmp : K -> K -> comparison.

(** One more row under key [k] in a key-sorted table of counts. *)
Fixpoint bump (k : K) (l : list (K * nat)) : list (K * nat) :=
  match l with
  | [] => [(k, 1%nat)]
  | (k', n) :: rest =>
      match cmp k k' with
      | Lt => (k, 1%nat) :: l
      | Eq => (k', S n) :: rest
      | Gt => (k', n) :: bump k rest
      end
  end.

(** [groupby(key).size()]: the keys in ascending order, each with the
    number of rows that carry it. *)
Definition groupby_size (keys : list K) : list (K * nat) :=
  fold_left (fun acc k => bump k acc) keys [].
End GroupBy.

Definition pair_compare (a b : Z * Z) : comparison :=
  match fst a ?= fst b with
  | Eq => snd a ?= snd b
  | c => c
  end.

(** [df['year'].isin(selected_years)] *)
Definition isin (selected_years : list Z) (r : Row) : bool :=
  existsb (Z.eqb (year r)) selected_years.

(** [df_filtered]: the very object [df] when nothing is selected, a new
    frame otherwise. *)
Inductive view : Type :=
| SameObject
| Subset (rows : list Row).

Definition filter_years (df : list Row) (selected_years : list Z) : view :=
  match selected_years with
  | [] => SameObject
  | _ :: _ => Subset (filter (isin selected_years) df)
  end.

Definition deref (df : list Row) (v : view) : list Row :=
  match v with
  | SameObject => df
  | Subset rows => rows
  end.

Definition yearly_posts (df_filtered : list Row) : list (Z * nat) :=
  groupby_size Z.compare (map year df_filtered).

Definition hourly_posts (df_filtered : list Row) : list (Z * nat) :=
  groupby_size Z.compare (map hour df_filtered).

Definition heatmap_data (df_filtered : list Row) : list ((Z * Z) * nat) :=
  groupby_size pair_compare (map (fun r => (year r, month r)) df_filtered).

(** [pivot(index='month', columns='year', values='posts').fillna(0)] read
    at one cell. *)
Definition heatmap_pivot (data : list ((Z * Z) * nat)) (m y : Z) : nat :=
  match find (fun e => (fst (fst e) =? y) && (snd (fst e) =? m)) data with
  | Some e => snd e
  | None => 0%nat
  end.

Definition weekday_order : list Calendar.day_name :=
  [Calendar.Monday; Calendar.Tuesday; Calendar.Wednesday; Calendar.Thursday;
   Calendar.Friday; Calendar.Saturday; Calendar.Sunday].

(** [value_counts().reindex(weekday_order, fill_value=0)] *)
Definition weekday_posts (df_filtered : list Row) : list nat :=
  map (fun d => List.length
                  (filter (fun r => Calendar.day_name_eqb (weekday r) d)
                          df_filtered))
      weekday_order.

(** The year and month of the day [days] after 1970-01-01. *)
Definition month_from_days (days : Z) : period :=
  let z := days + 719468 in
  let era := z / 146097 in
  let doe := z - era * 146097 in
  let yoe := (doe - doe / 1460 + doe / 36524 - doe / 146096) / 365 in
  let doy := doe - (365 * yoe + yoe / 4 - yoe / 100) in
  let mp := (5 * doy + 2) / 153 in
  let m := if mp <? 10 then mp + 3 else mp - 9 in
  let y := yoe + era * 400 in
  (if m <=? 2 then y + 1 else y, m).

Definition date_ymd (d : date_cell) : Z * Z * Z :=
  match d with
  | DateObj y m d' | DateTime y m d' => (y, m, d')
  end.

(** Line 293 and 295: [df['date'] = pd.to_datetime(df['date'])] and
    [df['ano_mes'] = df['date'].dt.to_period('M')], in place. *)
Definition set_date_ano_mes (r : Row) : Row :=
  let '(y, m, d) := date_ymd (date r) in
  {| timestamp := timestamp r; username := username r;
     followers_count := followers_count r; media_count := media_count r;
     timestamp_parsed := timestamp_parsed r;
     year := year r; month := month r; day := day r; hour := hour r;
     weekday := weekday r;
     date := DateTime y m d;
     ano_mes := Some (Some (y, m));
     periodo := periodo r |}.

Definition mean3 (a b c : nat) : Q :=
  Z.of_nat (a + b + c) # 3.

(** [rolling(window=3, center=True).mean()]: with the default
    [min_periods] a window that leaves the series has no value. *)
Fixpoint rolling_from (prev : nat) (l : list nat) : list (option Q) :=
  match l with
  | [] => []
  | cur :: tl =>
      match tl with
      | [] => [None]
      | next :: _ => Some (mean3 prev cur next) :: rolling_from cur tl
      end
  end.

Definition rolling3_center_mean (posts : list nat) : list (option Q) :=
  match posts with
  | [] => []
  | first :: tl => None :: rolling_from first tl
  end.

(** Lines 299-303. *)
Definition media_movel (posts : list nat) : list (option Q) :=
  if (3 <? List.length posts)%nat then rolling3_center_mean posts
  else map (fun _ => None) posts.

(** [posts_por_mes['media_movel'].notna().sum()] (line 323): the number
    of points at which the moving average has a value.  Its line is added
    to the chart only when this is positive. *)
Definition notna_sum (mm : list (option Q)) : nat :=
  List.length (filter (fun v => match v with Some _ => true | None => false end)
                      mm).

Definition posts_por_mes (df : list Row) : list (period * nat) :=
  groupby_size pair_compare
    (flat_map (fun r => match ano_mes r with
                        | Some (Some p) => [p]
                        | _ => []          (* groupby drops NaT keys *)
                        end) df).

Definition PANDEMIA_INICIO : Z := Calendar.utc_seconds 2020 3 1 0 0 0.
Definition PANDEMIA_FIM : Z := Calendar.utc_seconds 2021 12 31 0 0 0.

(** [x < bound] on a timestamp that may be NaT: every comparison with NaT
    is false. *)
Definition ts_lt (x : option Z) (bound : Z) : bool :=
  match x with
  | Some i => i <? bound
  | None => false
  end.

(** [lambda x: 'Pré-Pandemia' if x < PANDEMIA_INICIO else 'Pós-Pandemia'] *)
Definition classify (x : option Z) : periodo_name :=
  if ts_lt x PANDEMIA_INICIO then Pre_Pandemia else Pos_Pandemia.

(** The text handed to [pd.to_datetime] at line 364.  [load_data] leaves
    the raw cell in the column; a column that is already datetime is
    returned as it is. *)
Definition raw_cell (tc : timestamp_cell) : cell :=
  match tc with
  | RawTs c => c
  | UtcTs _ => NaN
  end.

Definition reparsed (tc : timestamp_cell) (lib : option Z) : option Z :=
  match tc with
  | RawTs _ => lib
  | UtcTs i => i
  end.

(** Lines 364-372 on one row, [x] being the row's re-parsed instant. *)
Definition set_timestamp_periodo (r : Row) (x : option Z) : Row :=
  {| timestamp := UtcTs x; username := username r;
     followers_count := followers_count r; media_count := media_count r;
     timestamp_parsed := timestamp_parsed r;
     year := year r; month := month r; day := day r; hour := hour r;
     weekday := weekday r; date := date r;
     ano_mes := Some (option_map (fun i => month_from_days (i / 86400)) x);
     periodo := Some (classify x) |}.

(** Line 364: [pd.to_datetime(df['timestamp'], utc=True, errors='coerce')]. *)
Definition reparse {P : Pandas} (col : list timestamp_cell) : list (option Z) :=
  map (fun '(tc, x) => reparsed tc x)
      (combine col (to_datetime_utc_coerce (map raw_cell col))).

Definition reparse_column {P : Pandas} (df : list Row) : list (option Z) :=
  reparse (map timestamp df).

Definition periodo_is (p : periodo_name) (r : Row) : bool :=
  match periodo r, p with
  | Some Pre_Pandemia, Pre_Pandemia | Some Pos_Pandemia, Pos_Pandemia => true
  | _, _ => false
  end.

(** What the six charts are drawn from. *)
Record Figures : Type := mkFigures {
  fig1 : list (Z * nat);                        (* posts per year *)
  fig2 : list (Z * nat);                        (* posts per hour *)
  fig3 : option (list ((Z * Z) * nat));         (* heatmap, or the notice *)
  fig : list (period * nat) * list (option Q);  (* monthly series, mean *)
  fig_media_movel : bool;                       (* the mean line is drawn *)
  fig_pizza : option (nat * nat);               (* sizes, or the notice *)
  sizes : nat * nat;
  fig6 : list nat                               (* posts per weekday *)
}.

(** The monthly step (lines 293-303): the new state of [df] and the
    series. *)
Definition monthly_step (df : list Row)
  : list Row * (list (period * nat) * list (option Q)) :=
  let df' := map set_date_ano_mes df in
  let ppm := posts_por_mes df' in
  (df', (ppm, media_movel (map snd ppm))).

(** The pandemic split (lines 364-379): the new state of [df] and
    [sizes]. *)
Definition pandemic_step {P : Pandas} (df : list Row) : list Row * (nat * nat) :=
  let df' := map (fun '(r, x) => set_timestamp_periodo r x)
                 (combine df (reparse_column df)) in
  (df', (List.length (filter (periodo_is Pre_Pandemia) df'),
         List.length (filter (periodo_is Pos_Pandemia) df'))).

(** [main] from the frame [load_data] returned and the years chosen in
    the sidebar: the state of [df] when [main] returns and the data of the
    charts; [None] when [main] stops at line 122. *)
Definition main {P : Pandas} (loaded : option (list Row)) (selected_years : list Z)
  : option (list Row * Figures) :=
  match loaded with
  | None => None
  | Some [] => None
  | Some df =>
      let df_filtered := filter_years df selected_years in
      let f1 := yearly_posts (deref df df_filtered) in
      let f2 := hourly_posts (deref df df_filtered) in
      let hd := heatmap_data (deref df df_filtered) in
      let f3 := match hd with [] => None | _ :: _ => Some hd end in
      let '(df1, monthly) := monthly_step df in
      let '(df2, sz) := pandemic_step df1 in
      let pizza := if (0 <? fst sz + snd sz)%nat then Some sz else None in
      let f6 := weekday_posts (deref df2 df_filtered) in
      Some (df2, {| fig1 := f1; fig2 := f2; fig3 := f3; fig := monthly;
                    fig_media_movel := (0 <? notna_sum (snd monthly))%nat;
                    fig_pizza := pizza; sizes := sz; fig6 := f6 |})
  end.

(* ===================================================================== *)
(** ** An executable instance of the pandas calls                         *)
(* ===================================================================== *)

(** Fixed-width ISO dates and times, signed decimal integers, and the
    compact date [YYYYMMDD] for the inference; every other string is
    refused.  The series parse follows pandas 2: the format is guessed
    from the first string and the strings that do not match it become
    NaT. *)
Module Reference.

Notation "'let?' x ':=' a 'in' b" :=
  (match a with Some x => b | None => None end)
  (at level 10, x pattern, a at level 100, b at level 200).

Definition digit (c : ascii) : option Z :=
  let n := Z.of_nat (nat_of_ascii c) in
  if (48 <=? n) && (n <=? 57) then Some (n - 48) else None.

(** Exactly [n] decimal digits. *)
Fixpoint digits (n : nat) (acc : Z) (s : string) : option (Z * string) :=
  match n with
  | O => Some (acc, s)
  | S n' =>
      match s with
      | String c rest =>
          let? d := digit c in digits n' (10 * acc + d) rest
      | EmptyString => None
      end
  end.

Definition lit (c : ascii) (s : string) : option string :=
  match s with
  | String c' rest => if Ascii.eqb c c' then Some rest else None
  | EmptyString => None
  end.

Definition guard (b : bool) : option unit := if b then Some tt else None.

(** [%Y-%m-%d] with fields of fixed width, for the years 1678 to 2261,
    all of which a nanosecond timestamp can hold (pandas also takes
    narrower fields and the dates of 1677 and 2262 inside its bounds). *)
Definition p_date (s : string) : option (Z * Z * Z * string) :=
  let? (y, s) := digits 4 0 s in
  let? s := lit "-" s in
  let? (m, s) := digits 2 0 s in
  let? s := lit "-" s in
  let? (d, s) := digits 2 0 s in
  let? _ := guard ((1678 <=? y) && (y <=? 2261) && (1 <=? m) && (m <=? 12)
                   && (1 <=? d) && (d <=? Calendar.days_in_month y m)) in
  Some (y, m, d, s).

(** [%H:%M:%S] *)
Definition p_time (s : string) : option (Z * Z * Z * string) :=
  let? (hh, s) := digits 2 0 s in
  let? s := lit ":" s in
  let? (mm, s) := digits 2 0 s in
  let? s := lit ":" s in
  let? (ss, s) := digits 2 0 s in
  let? _ := guard ((hh <=? 23) && (mm <=? 59) && (ss <=? 59)) in
  Some (hh, mm, ss, s).

(** [%z]: [Z], [+hh], [+hhmm] or [+hh:mm] with [hh <= 23], in minutes
    east of UTC. *)
Definition p_offset (s : string) : option (Z * string) :=
  match s with
  | String "Z" rest => Some (0, rest)
  | String c rest =>
      let? sign := (if Ascii.eqb c "+" then Some 1
                    else if Ascii.eqb c "-" then Some (-1) else None) in
      let? (hh, s) := digits 2 0 rest in
      let? _ := guard (hh <=? 23) in
      match s with
      | EmptyString => Some (sign * (hh * 60), s)
      | String _ _ =>
          let s := match lit ":" s with Some s' => s' | None => s end in
          let? (mm, s) := digits 2 0 s in
          let? _ := guard (mm <=? 59) in
          Some (sign * (hh * 60 + mm), s)
      end
  | EmptyString => None
  end.

Definition finish (s : string) (t : Timestamp) : res tsval :=
  match s with
  | EmptyString => Ok (Ts t)
  | String _ _ => Raise
  end.

Definition date_time (sep : ascii) (s : string)
  : option (Z * Z * Z * Z * Z * Z * string) :=
  let? (y, m, d, s) := p_date s in
  let? s := lit sep s in
  let? (hh, mm, ss, s) := p_time s in
  Some (y, m, d, hh, mm, ss, s).

Definition strptime (fmt s : string) : res tsval :=
  if String.eqb fmt "%Y-%m-%dT%H:%M:%S%z" then
    match date_time "T" s with
    | Some (y, m, d, hh, mm, ss, s) =>
        match p_offset s with
        | Some (o, s) => finish s (mkTimestamp y m d hh mm ss (Some o))
        | None => Raise
        end
    | None => Raise
    end
  else if String.eqb fmt "%Y-%m-%dT%H:%M:%S+0000" then
    match date_time "T" s with
    | Some (y, m, d, hh, mm, ss, s) =>
        if String.eqb s "+0000"
        then Ok (Ts (mkTimestamp y m d hh mm ss None)) else Raise
    | None => Raise
    end
  else if String.eqb fmt "%Y-%m-%dT%H:%M:%S" then
    match date_time "T" s with
    | Some (y, m, d, hh, mm, ss, s) =>
        finish s (mkTimestamp y m d hh mm ss None)
    | None => Raise
    end
  else if String.eqb fmt "%Y-%m-%d %H:%M:%S" then
    match date_time " " s with
    | Some (y, m, d, hh, mm, ss, s) =>
        finish s (mkTimestamp y m d hh mm ss None)
    | None => Raise
    end
  else if String.eqb fmt "%Y-%m-%d" then
    match p_date s with
    | Some (y, m, d, s) => finish s (mkTimestamp y m d 0 0 0 None)
    | None => Raise
    end
  else Raise.

(** The inference: the compact date [YYYYMMDD]. *)
Definition infer (s : string) : res tsval :=
  match digits 4 0 s with
  | Some (y, s) =>
      match digits 2 0 s with
      | Some (m, s) =>
          match digits 2 0 s with
          | Some (d, s) =>
              if (1678 <=? y) && (y <=? 2261) && (1 <=? m) && (m <=? 12)
                 && (1 <=? d) && (d <=? Calendar.days_in_month y m)
              then finish s (mkTimestamp y m d 0 0 0 None)
              else Raise
          | None => Raise
          end
      | None => Raise
      end
  | None => Raise
  end.

Fixpoint all_digits (acc : Z) (s : string) : option Z :=
  match s with
  | EmptyString => Some acc
  | String c rest => let? d := digit c in all_digits (10 * acc + d) rest
  end.

(** A decimal integer with an optional sign. *)
Definition integer (s : string) : option Z :=
  match s with
  | EmptyString => None
  | String c rest =>
      if Ascii.eqb c "-" then
        match rest with
        | EmptyString => None
        | _ => option_map Z.opp (all_digits 0 rest)
        end
      else if Ascii.eqb c "+" then
        match rest with
        | EmptyString => None
        | _ => all_digits 0 rest
        end
      else all_digits 0 s
  end.

Definition to_numeric (c : cell) : num :=
  match c with
  | NaN => NumNaN
  | Str s => match integer s with
             | Some z => Fin (inject_Z z)
             | None => NumNaN
             end
  end.

Definition tz_eqb (a b : option Z) : bool :=
  match a, b with
  | None, None => true
  | Some x, Some y => x =? y
  | _, _ => false
  end.

(** A column of timestamps is datetimelike when all share one zone. *)
Definition single_tz (col : list Timestamp) : bool :=
  match col with
  | [] => true
  | t :: rest => forallb (fun u => tz_eqb (ts_tz u) (ts_tz t)) rest
  end.

Definition guessable : list string :=
  [ "%Y-%m-%dT%H:%M:%S%z"; "%Y-%m-%dT%H:%M:%S"; "%Y-%m-%d %H:%M:%S";
    "%Y-%m-%d" ].

Definition accepts (s fmt : string) : bool :=
  match strptime fmt s with Ok (Ts _) => true | _ => false end.

Fixpoint first_string (col : list cell) : option string :=
  match col with
  | [] => None
  | Str s :: _ => Some s
  | NaN :: rest => first_string rest
  end.

Definition coerce_utc (parse : string -> res tsval) (c : cell) : option Z :=
  match c with
  | NaN => None
  | Str s => match parse s with
             | Ok (Ts t) => Some (utc_instant t)
             | _ => None
             end
  end.

Definition to_datetime_utc (col : list cell) : list (option Z) :=
  match first_string col with
  | None => map (fun _ => None) col
  | Some s0 =>
      match find (accepts s0) guessable with
      | Some fmt => map (coerce_utc (strptime fmt)) col
      | None => map (coerce_utc infer) col
      end
  end.

Definition pandas : Pandas.
Proof.
  refine {| to_datetime_format := strptime;
            to_datetime_infer := infer;
            to_numeric_coerce := to_numeric;
            dt_accessor := single_tz;
            to_datetime_utc_coerce := to_datetime_utc;
            to_datetime_utc_coerce_length := _ |}.
  intros col. unfold to_datetime_utc.
  destruct (first_string col) as [s0|]; [|apply length_map].
  destruct (find (accepts s0) guessable); apply length_map.
Defined.

End Reference.

Definition row_of (ts : string) : Raw.row :=
  Raw.mkRow (Str ts) (Str "ana") (Str "10") (Str "3").

Definition frame_of (rows : list Raw.row) : Raw.frame :=
  Raw.mkFrame true true true rows.

(** Files and tables for the concrete runs, loaded in 2026 with the
    reference instance. *)
Definition load_reference (df : Raw.frame) : list st_msg * option (list Row) :=
  load_data (P:=Reference.pandas) 2026 (inl df).

Definition table_of (df : Raw.frame) : list Row :=
  match snd (load_reference df) with
  | Some table => table
  | None => []
  end.

Definition four_dates : Raw.frame :=
  frame_of [ row_of "2019-01-01"; row_of "2020-02-15";
             row_of "2020-03-01"; row_of "2021-06-01" ].

Definition old_post : Raw.frame := frame_of [ row_of "2005-01-01" ].

Definition only_junk : Raw.frame :=
  frame_of [ row_of "not a date"; row_of "timestamp"; Raw.mkRow NaN NaN NaN NaN ].

Definition with_header_and_old : Raw.frame :=
  frame_of [ row_of "2019-01-01"; row_of "timestamp"; row_of "2005-01-01";
             row_of "2021-06-01T08:00:00" ].

Definition negative_followers : Raw.frame :=
  frame_of [ Raw.mkRow (Str "2021-06-01") (Str "ana") (Str "-5") (Str "n/a") ].

Definition offset_plus_two : Raw.frame :=
  frame_of [ row_of "2020-03-01T01:00:00+0200" ].

Definition mixed_formats : Raw.frame :=
  frame_of [ row_of "2019-01-01"; row_of "2019-05-05 10:00:00" ].

Definition five_months : Raw.frame :=
  frame_of [ row_of "2021-01-10"; row_of "2021-02-10"; row_of "2021-02-11";
             row_of "2021-03-10"; row_of "2021-04-10"; row_of "2021-05-10";
             row_of "2021-05-11"; row_of "2021-05-12" ].


Definition four_dates_mixed : Raw.frame :=
  frame_of [ row_of "2019-01-01"; row_of "2020-02-15 00:00:00";
             row_of "2020-03-01"; row_of "2021-06-01" ].

Definition five_years : Raw.frame :=
  frame_of [ row_of "2022-01-01"; row_of "2019-01-01"; row_of "2020-02-15";
             row_of "2018-07-07"; row_of "2021-06-01"; row_of "2020-03-01" ].

Definition march_elsewhere : Raw.frame :=
  frame_of [ row_of "2019-03-10"; row_of "2020-05-10" ].

Definition no_timestamp_column : Raw.frame :=
  Raw.mkFrame false true true [ row_of "2021-06-01" ].

(* ===================================================================== *)
(** ** The sidebar, the metrics and the heatmap markers of [main]         *)
(* ===================================================================== *)

(** [Series.unique()]: the values in the order of their first
    appearance. *)
Fixpoint unique (l : list Z) : list Z :=
  match l with
  | [] => []
  | x :: tl => x :: filter (fun y => negb (y =? x)) (unique tl)
  end.

Fixpoint insert_sorted (x : Z) (l : list Z) : list Z :=
  match l with
  | [] => [x]
  | y :: tl => if x <=? y then x :: l else y :: insert_sorted x tl
  end.

(** [sorted(...)] on integers. *)
Definition sorted (l : list Z) : list Z :=
  fold_right insert_sorted [] l.

(** Line 130: [sorted([int(y) for y in df['year'].unique() if not
    pd.isna(y)])]; the year column has no missing value. *)
Definition years_available (df : list Row) : list Z :=
  sorted (unique (map year df)).

(** Line 134: [years_available[-3:] if len(years_available) >= 3 else
    years_available], the selection the sidebar starts with. *)
Definition default_years (available : list Z) : list Z :=
  if (3 <=? List.length available)%nat
  then skipn (List.length available - 3) available
  else available.

(** Line 147: [len(df_filtered)]. *)
Definition total_posts (df_filtered : list Row) : nat :=
  List.length df_filtered.

Definition cell_eq_dec (a b : cell) : {a = b} + {a <> b}.
Proof. decide equality. apply string_dec. Defined.

Definition is_text (c : cell) : bool :=
  match c with Str _ => true | NaN => false end.

(** Line 150: [df_filtered['username'].nunique()], which leaves the
    missing values out. *)
Definition unique_users (df_filtered : list Row) : nat :=
  List.length (nodup cell_eq_dec (filter is_text (map username df_filtered))).

(** Lines 153-157: [max - min + 1] of the year column, 0 for a frame
    without rows. *)
Definition years_span (df_filtered : list Row) : Z :=
  match map year df_filtered with
  | [] => 0
  | y :: ys => fold_left Z.max ys y - fold_left Z.min ys y + 1
  end.

(** The columns and the index of [heatmap_pivot]: the years and the months
    that occur, ascending. *)
Definition heatmap_columns (data : list ((Z * Z) * nat)) : list Z :=
  sorted (unique (map (fun e => fst (fst e)) data)).

Definition heatmap_index (data : list ((Z * Z) * nat)) : list Z :=
  sorted (unique (map (fun e => snd (fst e)) data)).

(** [list.index(x)], [None] where Python raises. *)
Fixpoint index_of (x : Z) (l : list Z) : option nat :=
  match l with
  | [] => None
  | y :: tl => if y =? x then Some 0%nat else option_map S (index_of x tl)
  end.

(** Line 235: the vertical line is drawn when 2020 is a column. *)
Definition pandemic_vline (data : list ((Z * Z) * nat)) : bool :=
  existsb (Z.eqb 2020) (heatmap_columns data).

(** Lines 235-274: the horizontal line and the "Março/2020" annotation,
    at [month_position], drawn when 2020 is a column and 3 is in the
    index. *)
Definition pandemic_march (data : list ((Z * Z) * nat)) : option nat :=
  if pandemic_vline data then index_of 3 (heatmap_index data) else None.

Section GroupByLookup.
Variable K : Type.
Variable cmp : K -> K -> comparison.

Definition key_eqb (k x : K) : bool :=
  match cmp x k with Eq => true | _ => false end.

(** The count a table of counts holds for [k], 0 when [k] is not a key. *)
Fixpoint size_of (k : K) (g : list (K * nat)) : nat :=
  match g with
  | [] => 0%nat
  | (k', n) :: rest => if key_eqb k k' then n else size_of k rest
  end.
End GroupByLookup.

(* ===================================================================== *)
(** ** Properties of the loader                                           *)
(* ===================================================================== *)

Unset Implicit Arguments.

Section Loader.
Context {P : Pandas}.

(** [load_data] without the intermediate frame. *)
Lemma load_data_eq current_year csv :
  load_data current_year csv =
  match csv with
  | inr msg => ([Error_load (ReadError msg)], None)
  | inl df =>
      if negb (Raw.has_timestamp df)
      then ([Error_load (KeyError "timestamp")], None)
      else
        match filter notna (map (parse_row df)
                              (filter not_header (Raw.rows df))) with
        | [] => ([Write_processing; Error_no_valid_timestamp], None)
        | p :: ps =>
            if negb (dt_accessor (stamps (p :: ps)))
            then ([Write_processing; Error_load AttributeError_dt], None)
            else
              ([Write_processing;
                Success_loaded
                  (List.length
                     (map ensure_numeric
                        (filter (year_in_range current_year)
                           (flat_map derive (p :: ps)))))],
               Some (map ensure_numeric
                       (filter (year_in_range current_year)
                          (flat_map derive (p :: ps)))))
        end
  end.
Proof.
  unfold load_data, load_data_steps. destruct csv as [df|msg]; [|reflexivity].
  destruct (Raw.has_timestamp df); cbn [negb snd]; [|reflexivity].
  cbv zeta.
  destruct (filter notna (map (parse_row df)
                            (filter not_header (Raw.rows df))));
    reflexivity.
Qed.

(** The rows [load_data] keeps, as one expression. *)
Lemma load_data_some current_year csv msgs table :
  load_data current_year csv = (msgs, Some table) ->
  exists df,
    csv = inl df /\ Raw.has_timestamp df = true /\
    table = map ensure_numeric
              (filter (year_in_range current_year)
                 (flat_map derive
                    (filter notna
                       (map (parse_row df)
                          (filter not_header (Raw.rows df)))))) /\
    msgs = [Write_processing; Success_loaded (List.length table)].
Proof.
  rewrite load_data_eq. destruct csv as [df|msg]; [|discriminate].
  destruct (Raw.has_timestamp df) eqn:Hts; cbn [negb]; [|discriminate].
  cbv zeta.
  remember (filter notna (map (parse_row df) (filter not_header (Raw.rows df))))
    as clean eqn:Hclean.
  destruct clean as [|p ps]; [discriminate|].
  destruct (dt_accessor _); cbn [negb]; [|discriminate].
  intros E. inversion E; subst msgs table. exists df.
  repeat split; [assumption | now rewrite <- Hclean].
Qed.

Lemma in_derive p r :
  In r (derive p) ->
  exists t, p_timestamp_parsed p = Ts t /\
    timestamp r = RawTs (Raw.timestamp (p_raw p)) /\
    username r = Raw.username (p_raw p) /\
    followers_count r = p_followers_count p /\
    media_count r = p_media_count p /\
    timestamp_parsed r = Ts t /\
    year r = ts_year t /\ month r = ts_month t /\ day r = ts_day t /\
    hour r = ts_hour t /\
    date r = DateObj (ts_year t) (ts_month t) (ts_day t).
Proof.
  unfold derive. destruct (p_timestamp_parsed p) as [|t]; [intros []|].
  intros [<-|[]]. exists t. simpl. repeat split; reflexivity.
Qed.

(** Every row of the cleaned table comes from a line of the file that is
    not a header and whose timestamp parsed. *)
Lemma cleaned_row_origin current_year csv msgs table r :
  load_data current_year csv = (msgs, Some table) ->
  In r table ->
  exists df raw t,
    csv = inl df /\ In raw (Raw.rows df) /\ not_header raw = true /\
    parse_timestamp (Raw.timestamp raw) = Ts t /\
    timestamp r = RawTs (Raw.timestamp raw) /\
    username r = Raw.username raw /\
    followers_count r =
      option_map fillna0
        (convert_column (Raw.has_followers_count df) (Raw.followers_count raw)) /\
    media_count r =
      option_map fillna0
        (convert_column (Raw.has_media_count df) (Raw.media_count raw)) /\
    timestamp_parsed r = Ts t /\
    year r = ts_year t /\ month r = ts_month t /\ day r = ts_day t /\
    hour r = ts_hour t /\
    date r = DateObj (ts_year t) (ts_month t) (ts_day t) /\
    year_in_range current_year r = true.
Proof.
  intros Hload Hin.
  destruct (load_data_some _ _ _ _ Hload) as (df & -> & _ & -> & _).
  apply in_map_iff in Hin as (r0 & <- & Hin).
  apply filter_In in Hin as (Hin & Hrange).
  apply in_flat_map in Hin as (p & Hp & Hin).
  apply filter_In in Hp as (Hp & _).
  apply in_map_iff in Hp as (raw & <- & Hraw).
  apply filter_In in Hraw as (Hraw & Hhead).
  destruct (in_derive _ _ Hin) as (t & Ht & H1 & H2 & H3 & H4 & H5 & H6 & H7 & H8 & H9 & H10).
  exists df, raw, t. simpl in *.
  repeat split; try assumption; try congruence.
Qed.

Lemma try_formats_first s pre fmt post v :
  (forall f, In f pre -> to_datetime_format f s = Raise) ->
  to_datetime_format fmt s = Ok v ->
  try_formats (pre ++ fmt :: post)%list s = Some v.
Proof.
  induction pre as [|f pre IH]; simpl; intros Hpre Hfmt.
  - now rewrite Hfmt.
  - rewrite (Hpre f (or_introl eq_refl)). apply IH; auto.
Qed.

Lemma try_formats_none s fmts :
  (forall f, In f fmts -> to_datetime_format f s = Raise) ->
  try_formats fmts s = None.
Proof.
  induction fmts as [|f fmts IH]; simpl; intros Hall; [reflexivity|].
  rewrite (Hall f (or_introl eq_refl)). apply IH; auto.
Qed.

Lemma parse_timestamp_unguarded s :
  s <> "timestamp" -> s <> "" ->
  parse_timestamp (Str s) =
    match try_formats formats s with
    | Some v => v
    | None => match to_datetime_infer s with Ok v => v | Raise => NaT end
    end.
Proof.
  intros H1 H2. unfold parse_timestamp.
  apply String.eqb_neq in H1, H2. now rewrite H1, H2.
Qed.

(** C1. The timestamp parser tries the five formats in the order ISO with
    numeric offset, ISO with literal +0000, ISO without offset,
    space-separated date-time, date only; the first one that does not raise
    gives the result; the inference is tried only when all five raise, and
    when it raises too the result is NaT; the header string and the empty
    string are NaT at once; a row whose result is NaT is not in the cleaned
    table. *)
Theorem C1_parse_timestamp_first_format_wins (s : string) :
  formats = [ "%Y-%m-%dT%H:%M:%S%z"; "%Y-%m-%dT%H:%M:%S+0000";
              "%Y-%m-%dT%H:%M:%S"; "%Y-%m-%d %H:%M:%S"; "%Y-%m-%d" ] /\
  (s <> "timestamp" -> s <> "" ->
     (forall pre fmt post v,
        formats = (pre ++ fmt :: post)%list ->
        (forall f, In f pre -> to_datetime_format f s = Raise) ->
        to_datetime_format fmt s = Ok v ->
        parse_timestamp (Str s) = v) /\
     ((forall f, In f formats -> to_datetime_format f s = Raise) ->
        forall v, to_datetime_infer s = Ok v -> parse_timestamp (Str s) = v) /\
     ((forall f, In f formats -> to_datetime_format f s = Raise) ->
        to_datetime_infer s = Raise -> parse_timestamp (Str s) = NaT)) /\
  parse_timestamp (Str "timestamp") = NaT /\
  parse_timestamp (Str "") = NaT /\
  parse_timestamp NaN = NaT /\
  (forall current_year df msgs table raw,
     load_data current_year (inl df) = (msgs, Some table) ->
     In raw (Raw.rows df) ->
     parse_timestamp (Raw.timestamp raw) = NaT ->
     forall r, In r table -> timestamp r <> RawTs (Raw.timestamp raw)).
Proof.
  split; [reflexivity|]. split; [|repeat split].
  - intros H1 H2. rewrite (parse_timestamp_unguarded s H1 H2). repeat split.
    + intros pre fmt post v -> Hpre Hfmt.
      now rewrite (try_formats_first s pre fmt post v Hpre Hfmt).
    + intros Hall v Hv. now rewrite (try_formats_none s formats Hall), Hv.
    + intros Hall Hi. now rewrite (try_formats_none s formats Hall), Hi.
  - intros cy df msgs table raw Hload _ Hnat r Hr Heq.
    destruct (cleaned_row_origin _ _ _ _ _ Hload Hr)
      as (df' & raw' & t & _ & _ & _ & Hp & Hts & _).
    rewrite Hts in Heq. injection Heq as Heq. congruence.
Qed.


Lemma parse_header_is_NaT : parse_timestamp (Str "timestamp") = NaT.
Proof. reflexivity. Qed.



Lemma cleaned_timestamps current_year df rows :
  map timestamp
    (map ensure_numeric
       (filter (year_in_range current_year)
          (flat_map derive
             (filter notna (map (parse_row df) (filter not_header rows))))))
  = map RawTs (filter (survives current_year) (map Raw.timestamp rows)).
Proof.
  induction rows as [|raw rows IH]; [reflexivity|].
  cbn [filter map]. unfold survives at 1.
  destruct (not_header raw) eqn:Hh.
  - cbn [map filter]. unfold notna at 1. cbn [parse_row p_timestamp_parsed].
    destruct (parse_timestamp (Raw.timestamp raw)) as [|t] eqn:Hp; [exact IH|].
    cbn [flat_map]. unfold derive at 1.
    cbn [parse_row p_timestamp_parsed p_raw]. rewrite Hp.
    cbn [app filter]. unfold year_in_range at 1. cbn [year].
    destruct ((2010 <=? ts_year t) && (ts_year t <=? current_year + 1));
      cbn [map timestamp ensure_numeric]; [f_equal|]; exact IH.
  - unfold not_header in Hh.
    destruct (Raw.timestamp raw) as [|s0] eqn:Hc; [discriminate|].
    apply negb_false_iff, String.eqb_eq in Hh. subst s0.
    rewrite parse_header_is_NaT. exact IH.
Qed.

(** C5 (amended). In the cleaned table followers_count and media_count,
    when the file has the column, are never NaN: a value that fails the
    numeric parse becomes 0 and a value that parses is kept as it is,
    negative or not; which lines are kept is decided by the timestamp
    cells alone. *)
Theorem C5_numeric_columns_never_nan
  (current_year : Z) (df : Raw.frame) (msgs : list st_msg) (table : list Row) :
  load_data current_year (inl df) = (msgs, Some table) ->
  (forall r n, In r table ->
     (followers_count r = Some n -> n <> NumNaN) /\
     (media_count r = Some n -> n <> NumNaN)) /\
  (forall r, In r table ->
     exists raw, In raw (Raw.rows df) /\
       timestamp r = RawTs (Raw.timestamp raw) /\
       followers_count r =
         (if Raw.has_followers_count df
          then Some (match to_numeric_coerce (Raw.followers_count raw) with
                     | NumNaN => Fin 0
                     | parsed => parsed
                     end)
          else None) /\
       media_count r =
         (if Raw.has_media_count df
          then Some (match to_numeric_coerce (Raw.media_count raw) with
                     | NumNaN => Fin 0
                     | parsed => parsed
                     end)
          else None)) /\
  map timestamp table =
    map RawTs (filter (survives current_year)
                 (map Raw.timestamp (Raw.rows df))).
Proof.
  intros Hload.
  assert (Hcol : forall present c,
             option_map fillna0 (convert_column present c) =
             if present
             then Some (match to_numeric_coerce c with
                        | NumNaN => Fin 0 | parsed => parsed end)
             else None).
  { intros [] c; unfold convert_column, safe_numeric_convert; simpl;
      [|reflexivity].
    now destruct (to_numeric_coerce c). }
  repeat split.
  - intros Hf.
    destruct (cleaned_row_origin _ _ _ _ _ Hload H)
      as (df' & raw & t & _ & _ & _ & _ & _ & _ & Hfc & _).
    rewrite Hfc, Hcol in Hf.
    destruct (Raw.has_followers_count df'); [|discriminate].
    injection Hf as <-. now destruct (to_numeric_coerce _).
  - intros Hm.
    destruct (cleaned_row_origin _ _ _ _ _ Hload H)
      as (df' & raw & t & _ & _ & _ & _ & _ & _ & _ & Hmc & _).
    rewrite Hmc, Hcol in Hm.
    destruct (Raw.has_media_count df'); [|discriminate].
    injection Hm as <-. now destruct (to_numeric_coerce _).
  - intros r Hr.
    destruct (cleaned_row_origin _ _ _ _ _ Hload Hr)
      as (df' & raw & t & E & Hraw & _ & _ & Hts & _ & Hfc & Hmc & _).
    injection E as <-. exists raw. rewrite <- !Hcol. auto.
  - destruct (load_data_some _ _ _ _ Hload) as (df' & E & _ & -> & _).
    injection E as <-. apply cleaned_timestamps.
Qed.

End Loader.

(* ===================================================================== *)
(** ** Properties of the aggregations                                     *)
(* ===================================================================== *)

Section GroupByFacts.
Context {K : Type} (cmp : K -> K -> comparison).

Lemma bump_keys k k' n l :
  In (k', n) (bump cmp k l) -> k' = k \/ In k' (map fst l).
Proof.
  induction l as [|[k0 n0] l IH]; simpl.
  - intros [E|[]]. inversion E. now left.
  - destruct (cmp k k0); simpl.
    + intros [E|H]; [inversion E; subst; now right; left|].
      right; right. apply in_map_iff. now exists (k', n).
    + intros [E|[E|H]]; [inversion E; now left|inversion E; now right; left|].
      right; right. apply in_map_iff. now exists (k', n).
    + intros [E|H]; [inversion E; subst; now right; left|].
      destruct (IH H) as [->|H']; [now left|now right; right].
Qed.

Lemma fold_bump_keys keys acc k n :
  In (k, n) (fold_left (fun acc k => bump cmp k acc) keys acc) ->
  In k keys \/ In k (map fst acc).
Proof.
  revert acc. induction keys as [|k0 keys IH]; simpl; intros acc H.
  - right. apply in_map_iff. now exists (k, n).
  - destruct (IH _ H) as [H'|H']; [now left; right|].
    apply in_map_iff in H' as ([k1 n1] & E & H'). simpl in E. subst k1.
    destruct (bump_keys _ _ _ _ H') as [->|H'']; [now left; left|now right].
Qed.

(** Every key of a [groupby(...).size()] is the key of some row. *)
Lemma groupby_size_keys keys k n :
  In (k, n) (groupby_size cmp keys) -> In k keys.
Proof.
  intros H. destruct (fold_bump_keys _ _ _ _ H) as [H'|[]]. exact H'.
Qed.

End GroupByFacts.

Lemma nth_error_zip {A B C} (f : A * B -> C) (l1 : list A) (l2 : list B) i a :
  List.length l2 = List.length l1 ->
  nth_error l1 i = Some a ->
  exists b, nth_error l2 i = Some b /\
            nth_error (map f (combine l1 l2)) i = Some (f (a, b)).
Proof.
  revert l2 i. induction l1 as [|a1 l1 IH]; intros [|b2 l2] [|i]; simpl;
    try discriminate.
  - intros _ E. injection E as <-. now exists b2.
  - intros Hlen Hi. apply (IH l2 i); [now injection Hlen|exact Hi].
Qed.

Lemma length_zip {A B C} (f : A * B -> C) (l1 : list A) (l2 : list B) :
  List.length l2 = List.length l1 ->
  List.length (map f (combine l1 l2)) = List.length l1.
Proof.
  intros H. rewrite length_map, length_combine, H. apply Nat.min_id.
Qed.

(** Counting the rows of a rebuilt frame by a test of the rebuilt row is
    counting the second column by the same test. *)
Lemma count_zip {A B C} (f : A * B -> C) (g : C -> bool) (h : B -> bool)
      (l1 : list A) (l2 : list B) :
  (forall a b, g (f (a, b)) = h b) ->
  List.length l2 = List.length l1 ->
  List.length (filter g (map f (combine l1 l2))) = List.length (filter h l2).
Proof.
  intros Hgh. revert l2. induction l1 as [|a l1 IH]; intros [|b l2]; simpl;
    try discriminate; [reflexivity|].
  intros Hlen. injection Hlen as Hlen. rewrite Hgh.
  destruct (h b); simpl; rewrite (IH _ Hlen); reflexivity.
Qed.

Lemma count_partition {B} (h : B -> bool) (l : list B) :
  (List.length (filter h l) + List.length (filter (fun b => negb (h b)) l)
   = List.length l)%nat.
Proof.
  induction l as [|b l IH]; simpl; [reflexivity|].
  destruct (h b); simpl; lia.
Qed.

Section View.
Context {P : Pandas}.

Lemma reparse_length col : List.length (reparse col) = List.length col.
Proof.
  unfold reparse. apply length_zip.
  now rewrite to_datetime_utc_coerce_length, length_map.
Qed.

Lemma reparse_column_length df :
  List.length (reparse_column df) = List.length df.
Proof. unfold reparse_column. now rewrite reparse_length, length_map. Qed.

(** The monthly step leaves the [timestamp] column as it was. *)
Lemma reparse_column_monthly df :
  reparse_column (map set_date_ano_mes df) = reparse_column df.
Proof.
  unfold reparse_column. f_equal. rewrite map_map. apply map_ext.
  intros r. unfold set_date_ano_mes.
  now destruct (date_ymd (date r)) as [[y m] d].
Qed.

Lemma periodo_is_pre r x :
  periodo_is Pre_Pandemia (set_timestamp_periodo r x) = ts_lt x PANDEMIA_INICIO.
Proof.
  unfold periodo_is, set_timestamp_periodo, classify; simpl.
  now destruct (ts_lt x PANDEMIA_INICIO).
Qed.

Lemma periodo_is_pos r x :
  periodo_is Pos_Pandemia (set_timestamp_periodo r x)
  = negb (ts_lt x PANDEMIA_INICIO).
Proof.
  unfold periodo_is, set_timestamp_periodo, classify; simpl.
  now destruct (ts_lt x PANDEMIA_INICIO).
Qed.

(** The two counts of the pandemic split, read off the re-parsed
    column. *)
Lemma pandemic_step_sizes df :
  snd (pandemic_step df) =
    (List.length (filter (fun x => ts_lt x PANDEMIA_INICIO) (reparse_column df)),
     List.length (filter (fun x => negb (ts_lt x PANDEMIA_INICIO))
                    (reparse_column df))).
Proof.
  unfold pandemic_step. cbn [snd]. f_equal.
  - apply count_zip; [|apply reparse_column_length].
    intros a b. apply periodo_is_pre.
  - apply count_zip; [|apply reparse_column_length].
    intros a b. apply periodo_is_pos.
Qed.

Lemma pandemic_step_nth df i r :
  nth_error df i = Some r ->
  exists x, nth_error (reparse_column df) i = Some x /\
            nth_error (fst (pandemic_step df)) i
            = Some (set_timestamp_periodo r x).
Proof.
  intros Hi. unfold pandemic_step. cbn [fst].
  apply (nth_error_zip (fun '(r, x) => set_timestamp_periodo r x)
           df (reparse_column df) i r (reparse_column_length df) Hi).
Qed.

(** What [main] returns when it gets past line 122. *)
Lemma main_some df selected_years df' figs :
  main (Some df) selected_years = Some (df', figs) ->
  df <> [] /\
  df' = fst (pandemic_step (map set_date_ano_mes df)) /\
  sizes figs = snd (pandemic_step (map set_date_ano_mes df)) /\
  fig figs = snd (monthly_step df) /\
  fig1 figs = yearly_posts (deref df (filter_years df selected_years)) /\
  fig2 figs = hourly_posts (deref df (filter_years df selected_years)) /\
  fig3 figs = (match heatmap_data (deref df (filter_years df selected_years))
               with [] => None | hd => Some hd end) /\
  fig6 figs = weekday_posts (deref df' (filter_years df selected_years)) /\
  fig_pizza figs =
    (if (0 <? fst (sizes figs) + snd (sizes figs))%nat
     then Some (sizes figs) else None).
Proof.
  unfold main. destruct df as [|r0 df0]; [discriminate|].
  unfold monthly_step. cbv zeta.
  destruct (pandemic_step (map set_date_ano_mes (r0 :: df0))) as [df2 sz] eqn:E.
  intros H. injection H as <- <-. cbn [fst snd sizes fig fig1 fig2 fig3 fig6 fig_pizza fig_media_movel].
  repeat split; try reflexivity; try discriminate.
  now destruct (heatmap_data _).
Qed.

Lemma main_sizes df selected_years df' figs :
  main (Some df) selected_years = Some (df', figs) ->
  sizes figs =
    (List.length (filter (fun x => ts_lt x PANDEMIA_INICIO) (reparse_column df)),
     List.length (filter (fun x => negb (ts_lt x PANDEMIA_INICIO))
                    (reparse_column df))).
Proof.
  intros H. destruct (main_some _ _ _ _ H) as (_ & _ & -> & _).
  now rewrite pandemic_step_sizes, reparse_column_monthly.
Qed.

Lemma main_nth df selected_years df' figs i r :
  main (Some df) selected_years = Some (df', figs) ->
  nth_error df i = Some r ->
  exists x, nth_error (reparse_column df) i = Some x /\
            nth_error df' i
            = Some (set_timestamp_periodo (set_date_ano_mes r) x).
Proof.
  intros H Hi. destruct (main_some _ _ _ _ H) as (_ & -> & _).
  rewrite <- reparse_column_monthly.
  apply pandemic_step_nth. now rewrite nth_error_map, Hi.
Qed.

Lemma main_length df selected_years df' figs :
  main (Some df) selected_years = Some (df', figs) ->
  List.length df' = List.length df.
Proof.
  intros H. destruct (main_some _ _ _ _ H) as (_ & -> & _).
  unfold pandemic_step. cbn [fst].
  rewrite length_zip; [apply length_map|apply reparse_column_length].
Qed.

(** C2 (amended). The pre/post split runs over every row of the full
    table, whatever years are selected, on the row's timestamp text as
    re-parsed with utc=True at line 364, not on the timestamp [load_data]
    parsed: a row whose re-parsed instant is strictly before
    2020-03-01T00:00:00Z is "pre", every other row, the boundary instant
    and a failed re-parse included, is "post"; the two counts add up to
    the number of rows, and re-parsed instants 2019-01-01, 2020-02-15,
    2020-03-01, 2021-06-01 give 2 and 2. *)
Theorem C2_pre_post_split
  (df : list Row) (selected_years : list Z) (df' : list Row) (figs : Figures) :
  main (Some df) selected_years = Some (df', figs) ->
  PANDEMIA_INICIO = 1583020800 /\
  (forall i r, nth_error df i = Some r ->
     exists x r',
       nth_error (reparse_column df) i = Some x /\
       nth_error df' i = Some r' /\
       timestamp r' = UtcTs x /\
       (periodo r' = Some Pre_Pandemia <->
          exists t, x = Some t /\ t < PANDEMIA_INICIO) /\
       (periodo r' = Some Pos_Pandemia <->
          ~ exists t, x = Some t /\ t < PANDEMIA_INICIO)) /\
  sizes figs = (List.length (filter (periodo_is Pre_Pandemia) df'),
                List.length (filter (periodo_is Pos_Pandemia) df')) /\
  (fst (sizes figs) + snd (sizes figs))%nat = List.length df /\
  (forall selected_years2 df2 figs2,
     main (Some df) selected_years2 = Some (df2, figs2) ->
     sizes figs2 = sizes figs) /\
  (reparse_column df =
     [ Some (Calendar.utc_seconds 2019 1 1 0 0 0);
       Some (Calendar.utc_seconds 2020 2 15 0 0 0);
       Some (Calendar.utc_seconds 2020 3 1 0 0 0);
       Some (Calendar.utc_seconds 2021 6 1 0 0 0) ] ->
   sizes figs = (2%nat, 2%nat)).
Proof.
  intros Hmain. split; [reflexivity|]. split; [|split; [|split; [|split]]].
  - intros i r Hi.
    destruct (main_nth _ _ _ _ _ _ Hmain Hi) as (x & Hx & Hr').
    exists x, (set_timestamp_periodo (set_date_ano_mes r) x).
    repeat split; try assumption; cbn [periodo set_timestamp_periodo];
      unfold classify, ts_lt.
    + destruct x as [t|]; [|discriminate].
      destruct (Z.ltb_spec t PANDEMIA_INICIO); [|discriminate].
      intros _. now exists t.
    + intros (t & -> & Ht). apply Z.ltb_lt in Ht. now rewrite Ht.
    + destruct x as [t|].
      * destruct (Z.ltb_spec t PANDEMIA_INICIO); [discriminate|].
        intros _ (t' & E & Ht'). injection E as <-. lia.
      * intros _ (t' & E & _). discriminate.
    + intros Hno. destruct x as [t|]; [|reflexivity].
      destruct (Z.ltb_spec t PANDEMIA_INICIO); [|reflexivity].
      exfalso. apply Hno. now exists t.
  - destruct (main_some _ _ _ _ Hmain) as (_ & -> & -> & _). reflexivity.
  - rewrite (main_sizes _ _ _ _ Hmain). cbn [fst snd].
    now rewrite count_partition, reparse_column_length.
  - intros sel2 df2 figs2 H2.
    now rewrite (main_sizes _ _ _ _ Hmain), (main_sizes _ _ _ _ H2).
  - intros Hx. rewrite (main_sizes _ _ _ _ Hmain), Hx. reflexivity.
Qed.

Lemma filter_nonempty {B} (h : B -> bool) (l : list B) i x :
  nth_error l i = Some x -> h x = true ->
  (0 < List.length (filter h l))%nat.
Proof.
  intros Hi Hx. apply nth_error_In in Hi.
  assert (Hin : In x (filter h l)) by (apply filter_In; auto).
  destruct (filter h l); [destruct Hin|simpl; lia].
Qed.

(** C10. A row whose timestamp string comes out of the UTC re-parse as NaT
    is put in the "Pós-Pandemia" bucket, because the comparison of NaT with
    the boundary is false, and it is counted in the pie chart. *)
Theorem C10_failed_reparse_is_counted_as_post
  (df : list Row) (selected_years : list Z) (df' : list Row) (figs : Figures)
  (i : nat) (r : Row) :
  main (Some df) selected_years = Some (df', figs) ->
  nth_error df i = Some r ->
  nth_error (reparse_column df) i = Some None ->
  ts_lt None PANDEMIA_INICIO = false /\
  (exists r', nth_error df' i = Some r' /\
              timestamp r' = UtcTs None /\
              periodo r' = Some Pos_Pandemia /\
              In r' (filter (periodo_is Pos_Pandemia) df')) /\
  snd (sizes figs) =
    List.length (filter (fun x => match x with
                                  | None => true
                                  | Some t => PANDEMIA_INICIO <=? t
                                  end) (reparse_column df)) /\
  (0 < snd (sizes figs))%nat /\
  (fst (sizes figs) + snd (sizes figs))%nat = List.length df /\
  fig_pizza figs = Some (sizes figs).
Proof.
  intros Hmain Hi Hnat.
  assert (Hpos : (0 < snd (sizes figs))%nat).
  { rewrite (main_sizes _ _ _ _ Hmain). cbn [snd].
    now apply (filter_nonempty _ _ i None). }
  assert (Hsum : (fst (sizes figs) + snd (sizes figs))%nat = List.length df).
  { rewrite (main_sizes _ _ _ _ Hmain). cbn [fst snd].
    now rewrite count_partition, reparse_column_length. }
  split; [reflexivity|]. split; [|split; [|split; [|split]]]; try assumption.
  - destruct (main_nth _ _ _ _ _ _ Hmain Hi) as (x & Hx & Hr').
    rewrite Hnat in Hx. injection Hx as <-.
    eexists. split; [exact Hr'|]. repeat split.
    apply filter_In. split; [now apply nth_error_In in Hr'|reflexivity].
  - rewrite (main_sizes _ _ _ _ Hmain). cbn [snd]. f_equal.
    apply filter_ext. intros [t|]; [|reflexivity]. unfold ts_lt.
    now rewrite Z.leb_antisym.
  - destruct (main_some _ _ _ _ Hmain) as (_ & _ & _ & _ & _ & _ & _ & _ & ->).
    destruct (Nat.ltb_spec 0 (fst (sizes figs) + snd (sizes figs))); [reflexivity|lia].
Qed.

Lemma rolling_from_length prev l :
  List.length (rolling_from prev l) = List.length l.
Proof.
  revert prev. induction l as [|cur tl IH]; intros prev; [reflexivity|].
  simpl. destruct tl as [|next tl']; [reflexivity|].
  cbn [List.length]. f_equal. apply (IH cur).
Qed.

Lemma rolling_from_last prev l n :
  List.length l = S n ->
  nth_error (rolling_from prev l) n = Some None.
Proof.
  revert prev n. induction l as [|cur tl IH]; intros prev n Hn;
    [discriminate|].
  cbn [rolling_from]. destruct tl as [|next tl'].
  - injection Hn as <-. reflexivity.
  - destruct n as [|n]; [discriminate|].
    cbn [nth_error]. apply IH. simpl in *. lia.
Qed.

Lemma rolling_from_interior prev l i :
  (i + 1 < List.length l)%nat ->
  nth_error (rolling_from prev l) i
  = Some (Some (mean3 (nth i (prev :: l) 0%nat) (nth i l 0%nat)
                      (nth (S i) l 0%nat))).
Proof.
  revert prev i. induction l as [|cur tl IH]; intros prev i Hi;
    [simpl in Hi; lia|].
  simpl rolling_from. destruct tl as [|next tl']; [simpl in Hi; lia|].
  destruct i as [|i]; [reflexivity|].
  cbn [nth_error]. rewrite IH; [reflexivity|]. simpl in *. lia.
Qed.

Lemma notna_sum_all_none {A} (l : list A) :
  notna_sum (map (fun _ => None) l) = 0%nat.
Proof. unfold notna_sum. induction l; simpl; auto. Qed.

Lemma notna_sum_rolling_from prev l :
  notna_sum (rolling_from prev l) = (List.length l - 1)%nat.
Proof.
  unfold notna_sum. revert prev.
  induction l as [|cur tl IH]; intros prev; [reflexivity|].
  cbn [rolling_from]. destruct tl as [|next tl']; [reflexivity|].
  cbn [filter List.length]. rewrite (IH cur). simpl. lia.
Qed.

Lemma media_movel_notna_sum (posts : list nat) :
  notna_sum (media_movel posts)
  = if (3 <? List.length posts)%nat then (List.length posts - 2)%nat
    else 0%nat.
Proof.
  unfold media_movel. destruct (3 <? List.length posts)%nat eqn:E.
  - unfold rolling3_center_mean. destruct posts as [|first tl];
      [discriminate|].
    change (notna_sum (None :: rolling_from first tl))
      with (notna_sum (rolling_from first tl)).
    rewrite notna_sum_rolling_from. simpl. lia.
  - apply notna_sum_all_none.
Qed.

Lemma media_movel_spec (posts : list nat) :
  let mm := media_movel posts in
  let n := List.length posts in
  List.length mm = n /\
  ((n <= 3)%nat -> forall i, (i < n)%nat -> nth_error mm i = Some None) /\
  ((3 < n)%nat ->
     nth_error mm 0 = Some None /\
     nth_error mm (n - 1) = Some None /\
     forall i, (0 < i < n - 1)%nat ->
       nth_error mm i
       = Some (Some (mean3 (nth (i - 1) posts 0%nat) (nth i posts 0%nat)
                           (nth (i + 1) posts 0%nat)))).
Proof.
  cbv zeta. unfold media_movel. split; [|split].
  - destruct (3 <? List.length posts)%nat; [|apply length_map].
    unfold rolling3_center_mean. destruct posts as [|first tl];
      [reflexivity|]. simpl. now rewrite rolling_from_length.
  - intros Hn i Hi. destruct (Nat.ltb_spec 3 (List.length posts)); [lia|].
    rewrite nth_error_map.
    destruct (nth_error posts i) eqn:E; [reflexivity|].
    apply nth_error_None in E. lia.
  - intros Hn. destruct (Nat.ltb_spec 3 (List.length posts)); [|lia].
    unfold rolling3_center_mean.
    destruct posts as [|first tl]; [simpl in Hn; lia|].
    cbn [List.length] in *. split; [reflexivity|]. split.
    + replace (S (List.length tl) - 1)%nat
        with (S (List.length tl - 1)) by lia.
      cbn [nth_error]. apply rolling_from_last. lia.
    + intros i Hi. destruct i as [|i]; [lia|].
      cbn [nth_error]. rewrite rolling_from_interior by lia.
      replace (S i - 1)%nat with i by lia.
      replace (S i + 1)%nat with (S (S i)) by lia. reflexivity.
Qed.

(** C8. The rolling mean of the monthly series has no value at all when
    the series has 3 points or fewer (its defined part has length 0); with
    more than 3 points it has a value exactly at the interior points, the
    mean of the point and its two neighbours, and none at the first and
    the last point. *)
Theorem C8_rolling_mean_defined_at_interior_only (df : list Row) :
  let posts := map snd (fst (snd (monthly_step df))) in
  let mm := snd (snd (monthly_step df)) in
  let n := List.length posts in
  mm = media_movel posts /\
  List.length mm = n /\
  ((n <= 3)%nat ->
     (forall i, (i < n)%nat -> nth_error mm i = Some None) /\
     notna_sum mm = 0%nat) /\
  ((3 < n)%nat ->
     nth_error mm 0 = Some None /\
     nth_error mm (n - 1) = Some None /\
     (forall i, (0 < i < n - 1)%nat ->
        nth_error mm i
        = Some (Some (mean3 (nth (i - 1) posts 0%nat) (nth i posts 0%nat)
                            (nth (i + 1) posts 0%nat)))) /\
     notna_sum mm = (n - 2)%nat).
Proof.
  cbv zeta.
  pose proof (media_movel_spec (map snd (fst (snd (monthly_step df)))))
    as (Hlen & Hshort & Hlong).
  pose proof (media_movel_notna_sum (map snd (fst (snd (monthly_step df)))))
    as Hsum.
  split; [reflexivity|]. split; [exact Hlen|]. split.
  - intros Hn. split; [exact (Hshort Hn)|].
    change (snd (snd (monthly_step df)))
      with (media_movel (map snd (fst (snd (monthly_step df))))).
    rewrite Hsum.
    destruct (Nat.ltb_spec 3 (List.length (map snd (fst (snd (monthly_step df))))));
      [lia|reflexivity].
  - intros Hn. destruct (Hlong Hn) as (H0 & Hl & Hi).
    repeat split; try assumption.
    change (snd (snd (monthly_step df)))
      with (media_movel (map snd (fst (snd (monthly_step df))))).
    rewrite Hsum.
    destruct (Nat.ltb_spec 3 (List.length (map snd (fst (snd (monthly_step df))))));
      [reflexivity|lia].
Qed.

Lemma map_zip_fst {A B C D} (f : A * B -> C) (g : C -> D) (g' : A -> D)
      (l1 : list A) (l2 : list B) :
  (forall a b, g (f (a, b)) = g' a) ->
  List.length l2 = List.length l1 ->
  map g (map f (combine l1 l2)) = map g' l1.
Proof.
  intros Hg. revert l2. induction l1 as [|a l1 IH]; intros [|b l2]; simpl;
    try discriminate; [reflexivity|].
  intros Hlen. injection Hlen as Hlen. now rewrite Hg, (IH _ Hlen).
Qed.

Lemma weekday_posts_by_column df1 df2 :
  map weekday df1 = map weekday df2 -> weekday_posts df1 = weekday_posts df2.
Proof.
  intros H. unfold weekday_posts. apply map_ext. intros d.
  assert (E : forall l,
             List.length (filter (fun r => Calendar.day_name_eqb (weekday r) d) l)
             = List.length (filter (fun w => Calendar.day_name_eqb w d)
                              (map weekday l))).
  { induction l as [|r l IH]; simpl; [reflexivity|].
    destruct (Calendar.day_name_eqb (weekday r) d); simpl; now rewrite IH. }
  now rewrite !E, H.
Qed.

Lemma main_weekday_column df selected_years df' figs :
  main (Some df) selected_years = Some (df', figs) ->
  map weekday df' = map weekday df.
Proof.
  intros H. destruct (main_some _ _ _ _ H) as (_ & -> & _).
  unfold pandemic_step. cbn [fst].
  rewrite (map_zip_fst (fun '(r, x) => set_timestamp_periodo r x) weekday weekday);
    [|reflexivity|apply reparse_column_length].
  rewrite map_map. apply map_ext. intros r. unfold set_date_ano_mes.
  now destruct (date_ymd (date r)) as [[y m] d].
Qed.

(** C9 (amended). The year filter builds a new frame from rows of the
    table and changes nothing; the yearly, hourly, heatmap and weekday
    charts are computed from that subset of the table as loaded.  The
    monthly step overwrites [date] and the pandemic split overwrites
    [timestamp] with the UTC re-parse, and they add [ano_mes] and
    [periodo]; the rows, their order and every other field stay as they
    were. *)
Theorem C9_main_overwrites_only_timestamp_and_date
  (df : list Row) (selected_years : list Z) (df' : list Row) (figs : Figures) :
  main (Some df) selected_years = Some (df', figs) ->
  List.length df' = List.length df /\
  (forall i r, nth_error df i = Some r ->
     exists r' x,
       nth_error df' i = Some r' /\
       nth_error (reparse_column df) i = Some x /\
       username r' = username r /\
       followers_count r' = followers_count r /\
       media_count r' = media_count r /\
       timestamp_parsed r' = timestamp_parsed r /\
       year r' = year r /\ month r' = month r /\ day r' = day r /\
       hour r' = hour r /\ weekday r' = weekday r /\
       timestamp r' = UtcTs x /\
       date_ymd (date r') = date_ymd (date r) /\
       (exists y m d, date r' = DateTime y m d) /\
       ano_mes r' = Some (option_map (fun t => month_from_days (t / 86400)) x) /\
       periodo r' = Some (classify x)) /\
  (selected_years <> [] ->
     filter_years df selected_years = Subset (filter (isin selected_years) df)) /\
  (forall r, In r (deref df (filter_years df selected_years)) -> In r df) /\
  fig1 figs = yearly_posts (deref df (filter_years df selected_years)) /\
  fig2 figs = hourly_posts (deref df (filter_years df selected_years)) /\
  fig3 figs = (match heatmap_data (deref df (filter_years df selected_years))
               with [] => None | hd => Some hd end) /\
  fig6 figs = weekday_posts (deref df (filter_years df selected_years)).
Proof.
  intros Hmain.
  destruct (main_some _ _ _ _ Hmain)
    as (_ & _ & _ & _ & H1 & H2 & H3 & H6 & _).
  split; [exact (main_length _ _ _ _ Hmain)|].
  split; [|split; [|split; [|repeat split; try assumption]]].
  - intros i r Hi.
    destruct (main_nth _ _ _ _ _ _ Hmain Hi) as (x & Hx & Hr').
    exists (set_timestamp_periodo (set_date_ano_mes r) x), x.
    split; [exact Hr'|]. split; [exact Hx|].
    unfold set_date_ano_mes.
    destruct (date r) as [y m d|y m d]; simpl;
      repeat split; now exists y, m, d.
  - intros Hne. destruct selected_years; [congruence|reflexivity].
  - intros r. destruct selected_years as [|y ys]; cbn [filter_years deref];
      [auto|]. intros Hin. now apply filter_In in Hin.
  - rewrite H6. destruct selected_years as [|y ys]; cbn [filter_years deref];
      [|reflexivity].
    apply weekday_posts_by_column.
    exact (main_weekday_column _ _ _ _ Hmain).
Qed.

End View.

(* ===================================================================== *)
(** ** The loader and the view together                                   *)
(* ===================================================================== *)

Section Pipeline.
Context {P : Pandas}.

Lemma year_in_range_spec current_year r :
  year_in_range current_year r = true <->
  2010 <= year r <= current_year + 1.
Proof. unfold year_in_range. rewrite andb_true_iff, !Z.leb_le. tauto. Qed.

Lemma main_rows df selected_years df' figs r' :
  main (Some df) selected_years = Some (df', figs) ->
  In r' df' ->
  exists r x, In r df /\
              r' = set_timestamp_periodo (set_date_ano_mes r) x.
Proof.
  intros Hmain Hin. apply In_nth_error in Hin as (i & Hi).
  assert (Hlt : (i < List.length df)%nat).
  { rewrite <- (main_length _ _ _ _ Hmain). apply nth_error_Some. congruence. }
  destruct (nth_error df i) as [r|] eqn:Hr;
    [|apply nth_error_None in Hr; lia].
  destruct (main_nth _ _ _ _ _ _ Hmain Hr) as (x & _ & Hr').
  exists r, x. split; [now apply nth_error_In in Hr|congruence].
Qed.

Lemma set_date_ano_mes_year r : year (set_date_ano_mes r) = year r.
Proof.
  unfold set_date_ano_mes. now destruct (date_ymd (date r)) as [[y m] d].
Qed.

(** C4. Every row of the table [load_data] returns has
    2010 <= year <= current_year + 1; a line whose parsed year is outside
    is not in the table, nor in the filtered subset, nor among the years
    of the yearly chart, the heatmap or the monthly series. *)
Theorem C4_year_within_closed_range
  (current_year : Z) (csv : Raw.frame + string)
  (msgs : list st_msg) (table : list Row) :
  load_data current_year csv = (msgs, Some table) ->
  (forall r, In r table -> 2010 <= year r <= current_year + 1) /\
  (forall df raw t,
     csv = inl df -> In raw (Raw.rows df) ->
     parse_timestamp (Raw.timestamp raw) = Ts t ->
     ~ (2010 <= ts_year t <= current_year + 1) ->
     forall r, In r table -> timestamp r <> RawTs (Raw.timestamp raw)) /\
  (forall selected_years df' figs,
     main (Some table) selected_years = Some (df', figs) ->
     (forall r, In r (deref table (filter_years table selected_years)) ->
        2010 <= year r <= current_year + 1) /\
     (forall r, In r df' -> 2010 <= year r <= current_year + 1) /\
     (forall y n, In (y, n) (fig1 figs) -> 2010 <= y <= current_year + 1) /\
     (forall hd y m n, fig3 figs = Some hd -> In ((y, m), n) hd ->
        2010 <= y <= current_year + 1) /\
     (forall y m n, In ((y, m), n) (fst (fig figs)) ->
        2010 <= y <= current_year + 1)).
Proof.
  intros Hload.
  assert (Hrange : forall r, In r table -> 2010 <= year r <= current_year + 1).
  { intros r Hr.
    destruct (cleaned_row_origin _ _ _ _ _ Hload Hr)
      as (df & raw & t & _ & _ & _ & _ & _ & _ & _ & _ & _ & _ & _ & _ & _ & _ & H).
    now apply year_in_range_spec. }
  split; [exact Hrange|]. split.
  - intros df raw t _ _ Hp Hout r Hr Heq.
    destruct (cleaned_row_origin _ _ _ _ _ Hload Hr)
      as (df1 & raw1 & t1 & _ & _ & _ & Hp1 & Hts & _ & _ & _ & _ & Hy & _).
    rewrite Hts in Heq. injection Heq as Heq. rewrite Heq, Hp in Hp1.
    injection Hp1 as <-. apply Hout. rewrite <- Hy. now apply Hrange.
  - intros sel df' figs Hmain.
    destruct (main_some _ _ _ _ Hmain)
      as (_ & _ & _ & Hfig & H1 & _ & H3 & _).
    assert (Hsub : forall r, In r (deref table (filter_years table sel)) ->
                             2010 <= year r <= current_year + 1).
    { intros r. destruct sel as [|y ys]; cbn [filter_years deref];
        [apply Hrange|]. intros Hin. apply filter_In in Hin. now apply Hrange. }
    split; [exact Hsub|]. split; [|split; [|split]].
    + intros r' Hr'.
      destruct (main_rows _ _ _ _ _ Hmain Hr') as (r & x & Hr & ->).
      cbn [year set_timestamp_periodo]. rewrite set_date_ano_mes_year.
      now apply Hrange.
    + intros y n Hin. rewrite H1 in Hin.
      apply groupby_size_keys, in_map_iff in Hin as (r & <- & Hr).
      now apply Hsub.
    + intros hd y m n Hhd Hin. rewrite H3 in Hhd.
      destruct (heatmap_data _) as [|e es] eqn:E; [discriminate|].
      injection Hhd as <-. rewrite <- E in Hin.
      apply groupby_size_keys, in_map_iff in Hin as (r & Hk & Hr).
      injection Hk as <- _. now apply Hsub.
    + intros y m n Hin. rewrite Hfig in Hin. unfold monthly_step in Hin.
      cbn [fst snd] in Hin. unfold posts_por_mes in Hin.
      apply groupby_size_keys, in_flat_map in Hin as (r' & Hr' & Hk).
      apply in_map_iff in Hr' as (r & <- & Hr).
      destruct (cleaned_row_origin _ _ _ _ _ Hload Hr)
        as (df & raw & t & _ & _ & _ & _ & _ & _ & _ & _ & _ & Hy & _ & _ & _ & Hd & _).
      unfold set_date_ano_mes in Hk. rewrite Hd in Hk. cbn in Hk.
      destruct Hk as [Hk|[]]. injection Hk as <- _.
      rewrite <- Hy. now apply Hrange.
Qed.

(** C3 (amended). When no line survives the header removal and the
    timestamp parse, in particular when every line has an unparseable
    timestamp, [load_data] returns None after the "no valid timestamp"
    error, which is not what it shows on a read failure; a table it returns
    never holds a NaT timestamp.  When lines survive the parse and none
    has its year in range, the table is returned with no row where [.dt]
    is available on the parsed column, and None comes back through the
    load-error handler where it is not; [main] stops on that table as it
    does on None. *)
Theorem C3_no_parsed_row_is_a_failure (current_year : Z) :
  (forall df,
     Raw.has_timestamp df = true ->
     filter notna (map (parse_row df) (filter not_header (Raw.rows df))) = [] ->
     load_data current_year (inl df)
     = ([Write_processing; Error_no_valid_timestamp], None)) /\
  (forall df,
     Raw.has_timestamp df = true ->
     (forall raw, In raw (Raw.rows df) ->
        parse_timestamp (Raw.timestamp raw) = NaT) ->
     load_data current_year (inl df)
     = ([Write_processing; Error_no_valid_timestamp], None)) /\
  (forall msg,
     load_data current_year (inr msg) = ([Error_load (ReadError msg)], None) /\
     load_data current_year (inr msg)
     <> ([Write_processing; Error_no_valid_timestamp], None)) /\
  (forall csv msgs table r,
     load_data current_year csv = (msgs, Some table) ->
     In r table -> timestamp_parsed r <> NaT) /\
  (forall df,
     Raw.has_timestamp df = true ->
     filter notna (map (parse_row df) (filter not_header (Raw.rows df))) <> [] ->
     dt_accessor
       (stamps (filter notna (map (parse_row df)
                                (filter not_header (Raw.rows df))))) = true ->
     (forall raw t, In raw (Raw.rows df) ->
        parse_timestamp (Raw.timestamp raw) = Ts t ->
        ~ (2010 <= ts_year t <= current_year + 1)) ->
     snd (load_data current_year (inl df)) = Some []) /\
  (forall selected_years,
     main None selected_years = None /\ main (Some []) selected_years = None) /\
  (forall df,
     Raw.has_timestamp df = true ->
     filter notna (map (parse_row df) (filter not_header (Raw.rows df))) <> [] ->
     dt_accessor
       (stamps (filter notna (map (parse_row df)
                                (filter not_header (Raw.rows df))))) = false ->
     load_data current_year (inl df)
     = ([Write_processing; Error_load AttributeError_dt], None)).
Proof.
  assert (Hempty : forall df,
             Raw.has_timestamp df = true ->
             filter notna (map (parse_row df) (filter not_header (Raw.rows df))) = [] ->
             load_data current_year (inl df)
             = ([Write_processing; Error_no_valid_timestamp], None)).
  { intros df Hts Hnone. rewrite load_data_eq. rewrite Hts. cbn [negb].
    cbv zeta. now rewrite Hnone. }
  split; [exact Hempty|]. split; [|split; [|split; [|split; [|split]]]].
  - intros df Hts Hall. apply Hempty; [exact Hts|].
    destruct (filter notna _) as [|p ps] eqn:E; [reflexivity|].
    assert (Hin : In p (filter notna (map (parse_row df)
                                        (filter not_header (Raw.rows df)))))
      by (rewrite E; now left).
    apply filter_In in Hin as (Hin & Hp).
    apply in_map_iff in Hin as (raw & <- & Hraw).
    apply filter_In in Hraw as (Hraw & _).
    unfold notna in Hp. cbn [parse_row p_timestamp_parsed] in Hp.
    now rewrite (Hall raw Hraw) in Hp.
  - intros msg. split; [reflexivity|discriminate].
  - intros csv msgs table r Hload Hr.
    destruct (cleaned_row_origin _ _ _ _ _ Hload Hr)
      as (df & raw & t & _ & _ & _ & _ & _ & _ & _ & _ & -> & _).
    discriminate.
  - intros df Hts Hne Hdt Hout. rewrite load_data_eq. rewrite Hts. cbn [negb].
    cbv zeta.
    destruct (filter notna (map (parse_row df) (filter not_header (Raw.rows df))))
      as [|p ps] eqn:E; [congruence|].
    rewrite Hdt. cbn [negb snd]. f_equal.
    destruct (filter (year_in_range current_year) (flat_map derive (p :: ps)))
      as [|r rs] eqn:Er; [reflexivity|]. exfalso.
    assert (Hr : In r (filter (year_in_range current_year)
                         (flat_map derive (p :: ps))))
      by (rewrite Er; now left).
    apply filter_In in Hr as (Hr & Hyr).
    apply in_flat_map in Hr as (q & Hq & Hr). rewrite <- E in Hq.
    apply filter_In in Hq as (Hq & _).
    apply in_map_iff in Hq as (raw & <- & Hraw).
    apply filter_In in Hraw as (Hraw & _).
    destruct (in_derive _ _ Hr) as (t & Ht & _ & _ & _ & _ & _ & Hy & _).
    cbn [parse_row p_timestamp_parsed] in Ht.
    apply (Hout raw t Hraw Ht). rewrite <- Hy.
    now apply year_in_range_spec.
  - intros sel. split; reflexivity.
  - intros df Hts Hne Hdt. rewrite load_data_eq, Hts. cbn [negb].
    destruct (filter notna (map (parse_row df) (filter not_header (Raw.rows df))))
      as [|p ps]; [congruence|].
    now rewrite Hdt.
Qed.

End Pipeline.

Section ParsedZone.
Context {P : Pandas}.

Lemma try_formats_first_inv s fmts v :
  try_formats fmts s = Some v ->
  exists pre fmt post,
    fmts = (pre ++ fmt :: post)%list /\
    (forall f, In f pre -> to_datetime_format f s = Raise) /\
    to_datetime_format fmt s = Ok v.
Proof.
  induction fmts as [|f fmts IH]; simpl; [discriminate|].
  destruct (to_datetime_format f s) as [v'|] eqn:E.
  - intros H. injection H as <-. exists [], f, fmts.
    split; [reflexivity|]. split; [intros f' []|exact E].
  - intros H. destruct (IH H) as (pre & fmt & post & -> & Hpre & Hfmt).
    exists (f :: pre), fmt, post. split; [reflexivity|].
    split; [|exact Hfmt]. intros f' [<-|Hf']; [exact E|now apply Hpre].
Qed.

Lemma try_formats_none_inv s fmts :
  try_formats fmts s = None ->
  forall f, In f fmts -> to_datetime_format f s = Raise.
Proof.
  induction fmts as [|f0 fmts IH]; simpl; [intros _ f []|].
  destruct (to_datetime_format f0 s) as [v'|] eqn:E; [discriminate|].
  intros H f [<-|Hf]; [exact E|now apply IH].
Qed.

(** The value [parse_timestamp] stores is the one the first successful
    attempt returned. *)
Lemma parse_timestamp_first_success c t :
  parse_timestamp c = Ts t ->
  exists s, c = Str s /\ s <> "timestamp" /\ s <> "" /\
    ((exists pre fmt post,
        formats = (pre ++ fmt :: post)%list /\
        (forall f, In f pre -> to_datetime_format f s = Raise) /\
        to_datetime_format fmt s = Ok (Ts t)) \/
     ((forall f, In f formats -> to_datetime_format f s = Raise) /\
      to_datetime_infer s = Ok (Ts t))).
Proof.
  unfold parse_timestamp. destruct c as [|s]; [discriminate|].
  destruct (String.eqb_spec s "timestamp") as [->|Hh]; [discriminate|].
  destruct (String.eqb_spec s "") as [->|He]; [discriminate|].
  cbn [orb]. intros H. exists s. repeat split; try assumption.
  destruct (try_formats formats s) as [v|] eqn:E.
  - subst v. left. now apply try_formats_first_inv.
  - right. split; [now apply try_formats_none_inv|].
    destruct (to_datetime_infer s); [now subst|discriminate].
Qed.

End ParsedZone.

(** C6 (amended). The timestamp stored in the cleaned table is the value
    returned by the first parse attempt that succeeds, unchanged, in
    whatever zone that attempt gave it: no conversion to UTC is applied
    (what the format with the numeric offset returns is stored as it is
    returned, so it is UTC exactly when the returned timestamp is), and
    year, month, day and hour are read in that zone.  UTC instants come
    only from the re-parse that [main] makes before the pre/post split. *)
Theorem C6_parsed_timestamp_keeps_parsed_zone :
  (forall (P : Pandas) current_year csv msgs table r,
     load_data current_year csv = (msgs, Some table) ->
     In r table ->
     exists s t,
       timestamp r = RawTs (Str s) /\
       timestamp_parsed r = Ts t /\
       ((exists pre fmt post,
           formats = (pre ++ fmt :: post)%list /\
           (forall f, In f pre -> to_datetime_format f s = Raise) /\
           to_datetime_format fmt s = Ok (Ts t)) \/
        ((forall f, In f formats -> to_datetime_format f s = Raise) /\
         to_datetime_infer s = Ok (Ts t))) /\
       year r = ts_year t /\ month r = ts_month t /\
       day r = ts_day t /\ hour r = ts_hour t) /\
  (forall (P : Pandas) s t,
     s <> "timestamp" -> s <> "" ->
     to_datetime_format "%Y-%m-%dT%H:%M:%S%z" s = Ok (Ts t) ->
     parse_timestamp (Str s) = Ts t /\
     forall t', parse_timestamp (Str s) = Ts t' ->
                ts_tz t' = ts_tz t /\ ts_hour t' = ts_hour t /\
                is_utc t' = is_utc t) /\
  (forall (P : Pandas) df selected_years df' figs r',
     main (Some df) selected_years = Some (df', figs) ->
     In r' df' -> exists x, timestamp r' = UtcTs x).
Proof.
  split; [|split].
  - intros P cy csv msgs table r Hload Hr.
    destruct (cleaned_row_origin _ _ _ _ _ Hload Hr)
      as (df & raw & t & _ & _ & _ & Hp & Hts & _ & _ & _ & Htp & Hy & Hm & Hd & Hh & _).
    destruct (parse_timestamp_first_success _ _ Hp) as (s & Hc & _ & _ & Hsrc).
    exists s, t. rewrite Hts, Hc. repeat split; assumption.
  - intros P s t Hh He Hfmt.
    assert (Hp : parse_timestamp (Str s) = Ts t).
    { rewrite (parse_timestamp_unguarded s Hh He). unfold formats.
      cbn [try_formats]. now rewrite Hfmt. }
    split; [exact Hp|]. intros t' Hp'. rewrite Hp in Hp'.
    injection Hp' as <-. repeat split.
  - intros P df sel df' figs r' Hmain Hr'.
    destruct (main_rows _ _ _ _ _ Hmain Hr') as (r & x & _ & ->).
    now exists x.
Qed.

(* ===================================================================== *)
(** ** Concrete runs                                                      *)
(* ===================================================================== *)

(** "2020-01-15 10:30:00" is refused by the three ISO formats with a T
    and taken by the fourth format. *)
Lemma C1_witness :
  parse_timestamp (P:=Reference.pandas) (Str "2020-01-15 10:30:00")
  = Ts (mkTimestamp 2020 1 15 10 30 0 None).
Proof.
  destruct (@C1_parse_timestamp_first_format_wins
              Reference.pandas "2020-01-15 10:30:00") as (_ & H & _).
  destruct H as (Hfirst & _); [discriminate|discriminate|].
  apply (Hfirst [ "%Y-%m-%dT%H:%M:%S%z"; "%Y-%m-%dT%H:%M:%S+0000";
                  "%Y-%m-%dT%H:%M:%S" ]
                "%Y-%m-%d %H:%M:%S" [ "%Y-%m-%d" ]).
  - reflexivity.
  - intros f [<-|[<-|[<-|[]]]]; reflexivity.
  - reflexivity.
Defined.

(** The four dates of the split example, with only 2020 selected. *)
Lemma C2_witness :
  snd (load_reference four_dates) = Some (table_of four_dates) /\
  option_map (fun out => sizes (snd out))
    (main (P:=Reference.pandas) (Some (table_of four_dates)) [2020])
  = Some (2%nat, 2%nat).
Proof.
  split; [reflexivity|].
  destruct (main (P:=Reference.pandas) (Some (table_of four_dates)) [2020])
    as [[df' figs]|] eqn:E; [|vm_compute in E; discriminate E].
  cbn [option_map snd]. f_equal.
  destruct (@C2_pre_post_split Reference.pandas _ _ _ _ E)
    as (_ & _ & _ & _ & _ & Hexample).
  apply Hexample. reflexivity.
Defined.

(** The four dates of the split example, the second one written with a
    time of day: load parses all four to the same instants as before, the
    re-parse takes its format from the first line and turns the second
    into NaT, and the 2020-02-15 row is counted as "post". *)
Lemma C2_counterexample :
  option_map (map timestamp_parsed) (snd (load_reference four_dates_mixed))
  = Some [ Ts (mkTimestamp 2019 1 1 0 0 0 None);
           Ts (mkTimestamp 2020 2 15 0 0 0 None);
           Ts (mkTimestamp 2020 3 1 0 0 0 None);
           Ts (mkTimestamp 2021 6 1 0 0 0 None) ] /\
  option_map (map timestamp_parsed) (snd (load_reference four_dates_mixed))
  = option_map (map timestamp_parsed) (snd (load_reference four_dates)) /\
  option_map (fun out => (map periodo (fst out), sizes (snd out)))
    (main (P:=Reference.pandas) (Some (table_of four_dates_mixed)) [])
  = Some ([ Some Pre_Pandemia; Some Pos_Pandemia; Some Pos_Pandemia;
            Some Pos_Pandemia ], (1%nat, 3%nat)).
Proof. repeat split. Qed.

(** A file whose only post is from 2005: the table is returned with no
    row, after the success message. *)
Lemma C3_counterexample :
  load_reference old_post = ([Write_processing; Success_loaded 0], Some []) /\
  parse_timestamp (P:=Reference.pandas) (Str "2005-01-01")
  = Ts (mkTimestamp 2005 1 1 0 0 0 None).
Proof. split; reflexivity. Qed.

Lemma C3_witness :
  load_reference only_junk
  = ([Write_processing; Error_no_valid_timestamp], None).
Proof.
  destruct (@C3_no_parsed_row_is_a_failure Reference.pandas 2026)
    as (_ & Hjunk & _).
  apply (Hjunk only_junk).
  - reflexivity.
  - intros raw [<-|[<-|[<-|[]]]]; reflexivity.
Defined.

Lemma C4_witness :
  snd (load_reference with_header_and_old)
    = Some (table_of with_header_and_old) /\
  List.length (table_of with_header_and_old) = 2%nat /\
  Forall (fun r => 2010 <= year r <= 2026 + 1) (table_of with_header_and_old).
Proof.
  split; [reflexivity|]. split; [reflexivity|].
  apply Forall_forall.
  refine (proj1 (@C4_year_within_closed_range Reference.pandas 2026
                   (inl with_header_and_old)
                   [Write_processing; Success_loaded 2]
                   (table_of with_header_and_old) _)).
  reflexivity.
Defined.

(** A followers_count of "-5" parses and is kept. *)
Lemma C5_counterexample :
  option_map (map followers_count) (snd (load_reference negative_followers))
    = Some [Some (Fin (-5 # 1))] /\
  ~ (0 <= -5 # 1)%Q.
Proof. split; [reflexivity|]. unfold Qle; simpl; lia. Qed.

Lemma C5_witness :
  Forall (fun r => forall n,
            (followers_count r = Some n -> n <> NumNaN) /\
            (media_count r = Some n -> n <> NumNaN))
         (table_of negative_followers) /\
  option_map (map media_count) (snd (load_reference negative_followers))
    = Some [Some (Fin 0)].
Proof.
  split; [|reflexivity].
  apply Forall_forall. intros r Hr n.
  refine (proj1 (@C5_numeric_columns_never_nan Reference.pandas 2026
                   negative_followers [Write_processing; Success_loaded 1]
                   (table_of negative_followers) _) r n Hr).
  reflexivity.
Defined.

(** 01:00 at +02:00 on 2020-03-01 is stored at +02:00, as hour 1 of March,
    while the instant is 23:00 UTC of 2020-02-29. *)
Lemma C6_counterexample :
  option_map (map (fun r => (timestamp_parsed r, month r, day r, hour r)))
    (snd (load_reference offset_plus_two))
  = Some [ (Ts (mkTimestamp 2020 3 1 1 0 0 (Some 120)), 3, 1, 1) ] /\
  is_utc (mkTimestamp 2020 3 1 1 0 0 (Some 120)) = false /\
  utc_instant (mkTimestamp 2020 3 1 1 0 0 (Some 120))
  = Calendar.utc_seconds 2020 2 29 23 0 0.
Proof. repeat split. Qed.

Lemma C6_witness :
  parse_timestamp (P:=Reference.pandas) (Str "2020-03-01T01:00:00+0200")
  = Ts (mkTimestamp 2020 3 1 1 0 0 (Some 120)) /\
  is_utc (mkTimestamp 2020 3 1 1 0 0 (Some 120)) = false.
Proof.
  split; [|reflexivity].
  destruct C6_parsed_timestamp_keeps_parsed_zone as (_ & Hkept & _).
  apply (Hkept Reference.pandas "2020-03-01T01:00:00+0200"
               (mkTimestamp 2020 3 1 1 0 0 (Some 120)));
    [discriminate|discriminate|reflexivity].
Defined.


(** Five months give a mean at the three interior months; two months give
    none. *)
Lemma C8_witness :
  snd (snd (monthly_step (table_of five_months)))
    = [None; Some (4 # 3); Some (4 # 3); Some (5 # 3); None] /\
  (nth_error (snd (snd (monthly_step (table_of five_months)))) 0 = Some None /\
   nth_error (snd (snd (monthly_step (table_of five_months)))) (5 - 1)
     = Some None) /\
  nth_error (snd (snd (monthly_step (table_of mixed_formats)))) 1 = Some None.
Proof.
  split; [reflexivity|]. split.
  - destruct (C8_rolling_mean_defined_at_interior_only (table_of five_months))
      as (_ & _ & _ & H).
    destruct H as (H0 & Hlast & _); [vm_compute; lia|].
    split; [exact H0|exact Hlast].
  - destruct (C8_rolling_mean_defined_at_interior_only (table_of mixed_formats))
      as (_ & _ & H & _).
    destruct H as (Hnone & _); [vm_compute; lia|].
    apply Hnone. vm_compute; lia.
Defined.

(** After [main] the [timestamp] and [date] columns of the table are not
    what [load_data] returned. *)
Lemma C9_counterexample :
  map (fun r => (timestamp r, date r)) (table_of mixed_formats)
  = [ (RawTs (Str "2019-01-01"), DateObj 2019 1 1);
      (RawTs (Str "2019-05-05 10:00:00"), DateObj 2019 5 5) ] /\
  option_map (fun out => map (fun r => (timestamp r, date r)) (fst out))
    (main (P:=Reference.pandas) (Some (table_of mixed_formats)) [2019])
  = Some [ (UtcTs (Some 1546300800), DateTime 2019 1 1);
           (UtcTs None, DateTime 2019 5 5) ] /\
  option_map fst (main (P:=Reference.pandas) (Some (table_of mixed_formats)) [2019])
  <> Some (table_of mixed_formats).
Proof.
  split; [reflexivity|]. split; [reflexivity|].
  vm_compute. intros H. discriminate H.
Qed.

Lemma C9_witness :
  option_map (fun out => (map username (fst out), map year (fst out),
                          map timestamp_parsed (fst out), fig1 (snd out)))
    (main (P:=Reference.pandas) (Some (table_of mixed_formats)) [2019])
  = Some (map username (table_of mixed_formats),
          map year (table_of mixed_formats),
          map timestamp_parsed (table_of mixed_formats),
          [(2019, 2%nat)]) /\
  option_map (fun out => List.length (fst out))
    (main (P:=Reference.pandas) (Some (table_of mixed_formats)) [2019])
  = Some (List.length (table_of mixed_formats)).
Proof.
  split; [reflexivity|].
  destruct (main (P:=Reference.pandas) (Some (table_of mixed_formats)) [2019])
    as [[df' figs]|] eqn:E; [|vm_compute in E; discriminate E].
  cbn [option_map fst]. f_equal.
  exact (proj1 (@C9_main_overwrites_only_timestamp_and_date
                  Reference.pandas _ _ _ _ E)).
Defined.

(** "2019-05-05 10:00:00" is parsed by [load_data], does not match the
    format guessed from "2019-01-01" in the re-parse, and is counted as
    "Pós-Pandemia". *)
Lemma C10_witness :
  option_map (fun out => (map periodo (fst out), sizes (snd out),
                          fig_pizza (snd out)))
    (main (P:=Reference.pandas) (Some (table_of mixed_formats)) [])
  = Some ([Some Pre_Pandemia; Some Pos_Pandemia], (1%nat, 1%nat),
          Some (1%nat, 1%nat)) /\
  option_map (fun out => (0 <? snd (sizes (snd out)))%nat)
    (main (P:=Reference.pandas) (Some (table_of mixed_formats)) [])
  = Some true.
Proof.
  split; [reflexivity|].
  destruct (main (P:=Reference.pandas) (Some (table_of mixed_formats)) [])
    as [[df' figs]|] eqn:E; [|vm_compute in E; discriminate E].
  cbn [option_map snd]. f_equal. apply Nat.ltb_lt.
  destruct (nth_error (table_of mixed_formats) 1) as [r|] eqn:Hr;
    [|vm_compute in Hr; discriminate Hr].
  refine (proj1 (proj2 (proj2 (proj2
            (@C10_failed_reparse_is_counted_as_post Reference.pandas
               _ _ _ _ 1%nat r E Hr _))))).
  reflexivity.
Defined.

(* ===================================================================== *)
(** ** Further properties: the tables of counts                           *)
(* ===================================================================== *)

Section GroupByCorrect.
Context {K : Type} (cmp : K -> K -> comparison).
Hypothesis cmp_eq : forall a b, cmp a b = Eq <-> a = b.
Hypothesis cmp_gt : forall a b, cmp a b = Gt -> cmp b a = Lt.
Hypothesis cmp_trans :
  forall a b c, cmp a b = Lt -> cmp b c = Lt -> cmp a c = Lt.

Local Notation "'key_lt'" :=
  (fun a b : K * nat => cmp (fst a) (fst b) = Lt).
Local Notation "'count' k keys" :=
  (List.length (filter (key_eqb cmp k) keys))
  (at level 10, k at level 9, keys at level 9).

Lemma key_eqb_true k x : key_eqb cmp k x = true <-> x = k.
Proof.
  unfold key_eqb. rewrite <- cmp_eq. destruct (cmp x k); split; congruence.
Qed.

Lemma key_eqb_refl k : key_eqb cmp k k = true.
Proof. now apply key_eqb_true. Qed.

Lemma cmp_lt_neq a b :
  cmp a b = Lt -> key_eqb cmp b a = false /\ key_eqb cmp a b = false.
Proof.
  intros Hlt. split; unfold key_eqb; [now rewrite Hlt|].
  destruct (cmp b a) eqn:E; try reflexivity.
  apply cmp_eq in E. subst b.
  assert (cmp a a = Eq) by now apply cmp_eq. congruence.
Qed.

Lemma bump_sum k g :
  list_sum (map snd (bump cmp k g)) = S (list_sum (map snd g)).
Proof.
  induction g as [|[k' n] rest IH]; simpl; [reflexivity|].
  destruct (cmp k k'); simpl; [reflexivity|reflexivity|rewrite IH; lia].
Qed.

Lemma bump_sorted k g :
  StronglySorted key_lt g -> StronglySorted key_lt (bump cmp k g).
Proof.
  induction g as [|[k' n] rest IH]; simpl; intros Hs.
  - constructor; constructor.
  - inversion Hs as [|e l Hrest Hall]; subst.
    destruct (cmp k k') eqn:E.
    + apply cmp_eq in E. subst k'. constructor; assumption.
    + constructor; [exact Hs|]. constructor; [exact E|].
      apply Forall_forall. intros e He. rewrite Forall_forall in Hall.
      simpl. apply (cmp_trans _ _ _ E). exact (Hall e He).
    + constructor; [now apply IH|].
      apply Forall_forall. intros [k2 n2] He. simpl.
      destruct (bump_keys _ _ _ _ _ He) as [->|Hin].
      * now apply cmp_gt.
      * apply in_map_iff in Hin as (e & Hfst & Hin).
        rewrite Forall_forall in Hall. rewrite <- Hfst. exact (Hall e Hin).
Qed.

Lemma bump_positive k g :
  Forall (fun e : K * nat => (0 < snd e)%nat) g ->
  Forall (fun e : K * nat => (0 < snd e)%nat) (bump cmp k g).
Proof.
  induction g as [|[k' n] rest IH]; simpl; intros Hp.
  - constructor; [simpl; lia|constructor].
  - inversion Hp; subst. destruct (cmp k k').
    + constructor; [simpl; lia|assumption].
    + constructor; [simpl; lia|assumption].
    + constructor; [assumption|now apply IH].
Qed.

Lemma size_of_absent k g :
  Forall (fun e : K * nat => cmp k (fst e) = Lt) g -> size_of cmp k g = 0%nat.
Proof.
  induction g as [|[k' n] rest IH]; simpl; intros Hall; [reflexivity|].
  inversion Hall as [|e l Hlt Hrest]; subst. simpl in Hlt.
  destruct (cmp_lt_neq _ _ Hlt) as [_ ->]. now apply IH.
Qed.

(** One more row under [k0] adds one to the count of [k0] and leaves the
    other counts as they were. *)
Lemma bump_size_of k0 k g :
  StronglySorted key_lt g ->
  size_of cmp k (bump cmp k0 g)
  = (size_of cmp k g + if key_eqb cmp k k0 then 1 else 0)%nat.
Proof.
  induction g as [|[k' n] rest IH]; simpl; intros Hs.
  - destruct (key_eqb cmp k k0); reflexivity.
  - inversion Hs as [|e l Hrest Hall]; subst.
    destruct (cmp k0 k') eqn:E; simpl.
    + apply cmp_eq in E. subst k'.
      destruct (key_eqb cmp k k0); lia.
    + destruct (key_eqb cmp k k0) eqn:Ek.
      * apply key_eqb_true in Ek. subst k0.
        destruct (cmp_lt_neq _ _ E) as [_ ->].
        rewrite size_of_absent; [reflexivity|].
        apply Forall_forall. intros e He. rewrite Forall_forall in Hall.
        apply (cmp_trans _ _ _ E). exact (Hall e He).
      * lia.
    + destruct (key_eqb cmp k k') eqn:Ek'.
      * apply key_eqb_true in Ek'. subst k'.
        apply cmp_gt in E. destruct (cmp_lt_neq _ _ E) as [_ ->]. lia.
      * now apply IH.
Qed.

Lemma fold_bump_spec keys acc :
  StronglySorted key_lt acc ->
  Forall (fun e : K * nat => (0 < snd e)%nat) acc ->
  let g := fold_left (fun acc k => bump cmp k acc) keys acc in
  StronglySorted key_lt g /\
  Forall (fun e : K * nat => (0 < snd e)%nat) g /\
  (forall k, size_of cmp k g = (size_of cmp k acc + count k keys)%nat) /\
  list_sum (map snd g) = (list_sum (map snd acc) + List.length keys)%nat.
Proof.
  revert acc. induction keys as [|k0 keys IH]; intros acc Hs Hp; cbn zeta.
  - simpl. repeat split; auto.
  - simpl fold_left.
    destruct (IH (bump cmp k0 acc) (bump_sorted k0 acc Hs)
                 (bump_positive k0 acc Hp)) as (H1 & H2 & H3 & H4).
    repeat split; try assumption.
    + intros k. rewrite H3, (bump_size_of k0 k acc Hs). simpl filter.
      destruct (key_eqb cmp k k0); simpl; lia.
    + rewrite H4, bump_sum. simpl. lia.
Qed.

Lemma size_of_in g k n :
  StronglySorted key_lt g ->
  (In (k, n) g -> size_of cmp k g = n) /\
  (size_of cmp k g = n -> (0 < n)%nat -> In (k, n) g).
Proof.
  induction g as [|[k' n'] rest IH]; simpl; intros Hs.
  - split; [intros []|lia].
  - inversion Hs as [|e l Hrest Hall]; subst.
    destruct (IH Hrest) as [IH1 IH2]. split.
    + intros [E|Hin].
      * injection E as -> ->. now rewrite key_eqb_refl.
      * rewrite Forall_forall in Hall. specialize (Hall _ Hin). simpl in Hall.
        destruct (cmp_lt_neq _ _ Hall) as [-> _]. now apply IH1.
    + destruct (key_eqb cmp k k') eqn:Ek.
      * apply key_eqb_true in Ek. subst k'. intros -> _. now left.
      * intros Hn Hpos. right. now apply IH2.
Qed.

(** [groupby(key).size()]: the keys come out in strictly ascending order,
    a key is listed exactly when some row carries it, with the number of
    those rows, and the counts add up to the number of rows. *)
Lemma groupby_size_spec keys :
  StronglySorted key_lt (groupby_size cmp keys) /\
  (forall k n, In (k, n) (groupby_size cmp keys) <->
               n = count k keys /\ (0 < n)%nat) /\
  list_sum (map snd (groupby_size cmp keys)) = List.length keys.
Proof.
  unfold groupby_size.
  destruct (fold_bump_spec keys [] (SSorted_nil _) (Forall_nil _))
    as (Hs & Hp & Hsize & Hsum).
  split; [exact Hs|]. split; [|exact Hsum].
  intros k n. destruct (size_of_in _ k n Hs) as [H1 H2]. split.
  - intros Hin. split.
    + rewrite <- (H1 Hin). apply Hsize.
    + rewrite Forall_forall in Hp. exact (Hp _ Hin).
  - intros [-> Hpos]. apply H2; [apply Hsize|exact Hpos].
Qed.

Lemma count_positive k keys : In k keys <-> (0 < count k keys)%nat.
Proof.
  induction keys as [|x keys IH]; simpl; [split; [intros []|lia]|].
  destruct (key_eqb cmp k x) eqn:E; simpl.
  - apply key_eqb_true in E. split; [lia|now left].
  - rewrite <- IH. split; [intros [->|H]; [|exact H]|now right].
    now rewrite key_eqb_refl in E.
Qed.

Lemma groupby_size_key_iff keys k :
  (exists n, In (k, n) (groupby_size cmp keys)) <-> In k keys.
Proof.
  destruct (groupby_size_spec keys) as (_ & Hin & _). split.
  - intros (n & H). apply Hin in H as [-> Hpos]. now apply count_positive.
  - intros H. exists (count k keys). apply Hin. split; [reflexivity|].
    now apply count_positive.
Qed.

End GroupByCorrect.

Lemma Z_compare_gt_lt a b : (a ?= b) = Gt -> (b ?= a) = Lt.
Proof. rewrite Z.compare_gt_iff, Z.compare_lt_iff. auto. Qed.

Lemma Z_compare_lt_trans a b c :
  (a ?= b) = Lt -> (b ?= c) = Lt -> (a ?= c) = Lt.
Proof. rewrite !Z.compare_lt_iff. lia. Qed.

Lemma key_eqb_Z k x : key_eqb Z.compare k x = (x =? k).
Proof.
  unfold key_eqb. destruct (Z.compare_spec x k), (Z.eqb_spec x k);
    auto; lia.
Qed.

Lemma pair_compare_lt a b :
  pair_compare a b = Lt <->
  fst a < fst b \/ (fst a = fst b /\ snd a < snd b).
Proof.
  unfold pair_compare.
  destruct (Z.compare_spec (fst a) (fst b)) as [E|E|E].
  - rewrite Z.compare_lt_iff. lia.
  - split; [now left|reflexivity].
  - split; [discriminate|lia].
Qed.

Lemma pair_compare_eq a b : pair_compare a b = Eq <-> a = b.
Proof.
  unfold pair_compare. destruct a as [a1 a2], b as [b1 b2]; simpl.
  destruct (Z.compare_spec a1 b1) as [E|E|E].
  - rewrite Z.compare_eq_iff. subst. split; [now intros ->|congruence].
  - split; [discriminate|intros H; injection H; lia].
  - split; [discriminate|intros H; injection H; lia].
Qed.

Lemma pair_compare_gt_lt a b :
  pair_compare a b = Gt -> pair_compare b a = Lt.
Proof.
  intros H. apply pair_compare_lt. unfold pair_compare in H.
  destruct (Z.compare_spec (fst a) (fst b)) as [E|E|E];
    [apply Z.compare_gt_iff in H; lia|discriminate|lia].
Qed.

Lemma pair_compare_lt_trans a b c :
  pair_compare a b = Lt -> pair_compare b c = Lt -> pair_compare a c = Lt.
Proof. rewrite !pair_compare_lt. lia. Qed.

Lemma key_eqb_pair y m a b :
  key_eqb pair_compare (y, m) (a, b) = (a =? y) && (b =? m).
Proof.
  unfold key_eqb.
  destruct (pair_compare (a, b) (y, m)) eqn:E.
  - apply pair_compare_eq in E. injection E as -> ->.
    now rewrite !Z.eqb_refl.
  - destruct (Z.eqb_spec a y), (Z.eqb_spec b m); try reflexivity. subst.
    assert (pair_compare (y, m) (y, m) = Eq) by now apply pair_compare_eq.
    congruence.
  - destruct (Z.eqb_spec a y), (Z.eqb_spec b m); try reflexivity. subst.
    assert (pair_compare (y, m) (y, m) = Eq) by now apply pair_compare_eq.
    congruence.
Qed.

Lemma count_map {A B} (f : A -> B) (p : B -> bool) (l : list A) :
  List.length (filter p (map f l)) = List.length (filter (fun a => p (f a)) l).
Proof.
  induction l as [|a l IH]; simpl; [reflexivity|].
  destruct (p (f a)); simpl; now rewrite IH.
Qed.

Lemma StronglySorted_weaken {A} (R S : A -> A -> Prop) (l : list A) :
  (forall a b, R a b -> S a b) -> StronglySorted R l -> StronglySorted S l.
Proof.
  intros HRS. induction 1 as [|a l Hs IH Hall]; constructor; [exact IH|].
  rewrite Forall_forall in *. auto.
Qed.

(** The counts of a column of integers, in the terms of the rows. *)
Lemma groupby_Z_spec {A} (key : A -> Z) (rows : list A) :
  let g := groupby_size Z.compare (map key rows) in
  StronglySorted (fun a b => fst a < fst b) g /\
  (forall k n, In (k, n) g <->
     n = List.length (filter (fun r => key r =? k) rows) /\ (0 < n)%nat) /\
  list_sum (map snd g) = List.length rows.
Proof.
  destruct (groupby_size_spec Z.compare Z.compare_eq_iff Z_compare_gt_lt
              Z_compare_lt_trans (map key rows)) as (Hs & Hin & Hsum).
  cbv zeta. split; [|split].
  - apply (StronglySorted_weaken _ _ _ (fun a b H => proj1 (Z.compare_lt_iff _ _) H) Hs).
  - intros k n. rewrite Hin, count_map.
    rewrite (filter_ext _ (fun r => key r =? k)
               (fun r => key_eqb_Z k (key r))). reflexivity.
  - now rewrite Hsum, length_map.
Qed.

(** The counts of a column of (year, month) pairs. *)
Lemma groupby_pair_spec {A} (key : A -> Z * Z) (rows : list A) :
  let g := groupby_size pair_compare (map key rows) in
  StronglySorted
    (fun a b => fst (fst a) < fst (fst b) \/
                (fst (fst a) = fst (fst b) /\ snd (fst a) < snd (fst b))) g /\
  (forall y m n, In ((y, m), n) g <->
     n = List.length (filter (fun r => (fst (key r) =? y) && (snd (key r) =? m))
                        rows) /\ (0 < n)%nat) /\
  list_sum (map snd g) = List.length rows.
Proof.
  destruct (groupby_size_spec pair_compare pair_compare_eq pair_compare_gt_lt
              pair_compare_lt_trans (map key rows)) as (Hs & Hin & Hsum).
  cbv zeta. split; [|split].
  - apply (StronglySorted_weaken _ _ _
             (fun a b H => proj1 (pair_compare_lt (fst a) (fst b)) H) Hs).
  - intros y m n. rewrite Hin, count_map.
    rewrite (filter_ext _ (fun r => (fst (key r) =? y) && (snd (key r) =? m))
               (fun r => eq_trans
                           (f_equal (key_eqb pair_compare (y, m))
                                    (surjective_pairing (key r)))
                           (key_eqb_pair y m (fst (key r)) (snd (key r))))).
    reflexivity.
  - now rewrite Hsum, length_map.
Qed.

(* ===================================================================== *)
(** ** Further properties: the sidebar                                    *)
(* ===================================================================== *)

Lemma in_insert_sorted a x l : In a (insert_sorted x l) <-> a = x \/ In a l.
Proof.
  induction l as [|y tl IH]; simpl; [intuition auto|].
  destruct (x <=? y); simpl; rewrite ?IH; intuition auto.
Qed.

Lemma in_sorted a l : In a (sorted l) <-> In a l.
Proof.
  induction l as [|x tl IH]; simpl; [reflexivity|].
  rewrite in_insert_sorted, IH. intuition auto.
Qed.

Lemma in_unique a l : In a (unique l) <-> In a l.
Proof.
  induction l as [|x tl IH]; simpl; [reflexivity|].
  rewrite filter_In, IH, negb_true_iff, Z.eqb_neq.
  destruct (Z.eq_dec a x); intuition auto.
Qed.

Lemma NoDup_unique l : NoDup (unique l).
Proof.
  induction l as [|x tl IH]; simpl; constructor.
  - rewrite filter_In, Z.eqb_refl. intros [_ H]. discriminate.
  - now apply NoDup_filter.
Qed.

Lemma insert_sorted_lt x l :
  StronglySorted Z.lt l -> ~ In x l -> StronglySorted Z.lt (insert_sorted x l).
Proof.
  induction l as [|y tl IH]; simpl; intros Hs Hnot.
  - repeat constructor.
  - inversion Hs as [|y' tl' Htl Hall]; subst.
    destruct (Z.leb_spec x y) as [Hle|Hgt].
    + assert (x < y) by (assert (y <> x) by tauto; lia).
      constructor; [exact Hs|]. constructor; [assumption|].
      rewrite Forall_forall in *. intros z Hz. specialize (Hall z Hz). lia.
    + constructor; [apply IH; tauto|].
      rewrite Forall_forall in *. intros z Hz.
      apply in_insert_sorted in Hz as [->|Hz]; [exact Hgt|auto].
Qed.

Lemma sorted_lt l : NoDup l -> StronglySorted Z.lt (sorted l).
Proof.
  induction 1 as [|x l Hnot Hnd IH]; simpl; [constructor|].
  apply insert_sorted_lt; [exact IH|]. now rewrite in_sorted.
Qed.

(** Two strictly ascending lists with the same elements are the same
    list. *)
Lemma ascending_ext l1 l2 :
  StronglySorted Z.lt l1 -> StronglySorted Z.lt l2 ->
  (forall x, In x l1 <-> In x l2) -> l1 = l2.
Proof.
  revert l2. induction l1 as [|a l1 IH]; intros [|b l2] H1 H2 Hin.
  - reflexivity.
  - destruct (proj2 (Hin b) (or_introl eq_refl)).
  - destruct (proj1 (Hin a) (or_introl eq_refl)).
  - inversion H1 as [|? ? Hs1 Ha]; inversion H2 as [|? ? Hs2 Hb]; subst.
    rewrite Forall_forall in Ha, Hb.
    assert (a = b).
    { destruct (proj1 (Hin a) (or_introl eq_refl)) as [E|Hab]; [auto|].
      destruct (proj2 (Hin b) (or_introl eq_refl)) as [E|Hba]; [auto|].
      specialize (Ha _ Hba). specialize (Hb _ Hab). lia. }
    subst b. f_equal. apply IH; try assumption.
    intros x. split; intros Hx.
    + destruct (proj1 (Hin x) (or_intror Hx)) as [E|H]; [|exact H].
      subst x. specialize (Ha _ Hx). lia.
    + destruct (proj2 (Hin x) (or_intror Hx)) as [E|H]; [|exact H].
      subst x. specialize (Hb _ Hx). lia.
Qed.

Lemma ascending_map_fst (g : list (Z * nat)) :
  StronglySorted (fun a b => fst a < fst b) g ->
  StronglySorted Z.lt (map fst g).
Proof.
  induction 1 as [|e g Hs IH Hall]; simpl; constructor; [exact IH|].
  rewrite Forall_forall in *. intros x Hx.
  apply in_map_iff in Hx as (e' & <- & He'). now apply Hall.
Qed.

Lemma filter_length_pos {A} (h : A -> bool) (l : list A) :
  (0 < List.length (filter h l))%nat <-> exists x, In x l /\ h x = true.
Proof.
  split.
  - destruct (filter h l) as [|x tl] eqn:E; simpl; [lia|]. intros _.
    exists x. apply filter_In. rewrite E. now left.
  - intros (x & Hx & Hh).
    assert (Hin : In x (filter h l)) by (apply filter_In; auto).
    destruct (filter h l); [destruct Hin|simpl; lia].
Qed.

Lemma in_years_available df y :
  In y (years_available df) <-> exists r, In r df /\ year r = y.
Proof.
  unfold years_available. rewrite in_sorted, in_unique, in_map_iff.
  split; intros (r & H1 & H2); exists r; auto.
Qed.

(** X1. The years offered in the sidebar are strictly ascending, without
    repetition, they are exactly the years that occur in the table, and
    they are the bars of the yearly chart of the whole table. *)
Theorem X1_years_available_are_the_years_of_the_table (df : list Row) :
  StronglySorted Z.lt (years_available df) /\
  (forall y, In y (years_available df) <-> exists r, In r df /\ year r = y) /\
  years_available df = map fst (yearly_posts df).
Proof.
  assert (Hs : StronglySorted Z.lt (years_available df))
    by (apply sorted_lt, NoDup_unique).
  split; [exact Hs|]. split; [apply in_years_available|].
  destruct (groupby_Z_spec year df) as (Hg & Hkeys & _).
  apply ascending_ext; [exact Hs|now apply ascending_map_fst|].
  intros y. rewrite in_years_available, in_map_iff. unfold yearly_posts.
  split.
  - intros (r & Hr & Hy).
    exists (y, List.length (filter (fun r => year r =? y) df)).
    split; [reflexivity|]. apply Hkeys. split; [reflexivity|].
    apply filter_length_pos. exists r. split; [exact Hr|].
    now apply Z.eqb_eq.
  - intros ([y' n] & Hy & Hin). simpl in Hy. subst y'.
    apply Hkeys in Hin as [-> Hpos].
    apply filter_length_pos in Hpos as (r & Hr & Hy).
    exists r. split; [exact Hr|now apply Z.eqb_eq].
Qed.

Lemma skipn_app_all {A} (n : nat) (l : list A) :
  l = (firstn n l ++ skipn n l)%list.
Proof. symmetry. apply firstn_skipn. Qed.

(** X2. The selection the sidebar starts with is the tail of the available
    years: all of them when there are fewer than three, the last three
    otherwise; so it is made of years of the table, it is not empty when
    the table has a row, and every year left out is earlier than every
    year selected. *)
Theorem X2_default_years_are_the_most_recent (df : list Row) :
  let available := years_available df in
  let chosen := default_years available in
  (exists older, available = (older ++ chosen)%list /\
     forall y c, In y older -> In c chosen -> y < c) /\
  List.length chosen = Nat.min 3 (List.length available) /\
  (forall c, In c chosen -> exists r, In r df /\ year r = c) /\
  (df <> [] -> chosen <> []).
Proof.
  cbv zeta. set (available := years_available df).
  assert (Hs : StronglySorted Z.lt available)
    by (apply sorted_lt, NoDup_unique).
  assert (Hsplit : exists older,
             available = (older ++ default_years available)%list).
  { unfold default_years. destruct (3 <=? List.length available)%nat.
    - exists (firstn (List.length available - 3) available).
      apply skipn_app_all.
    - now exists []. }
  destruct Hsplit as (older & Hsplit).
  assert (Hlen : List.length (default_years available)
                 = Nat.min 3 (List.length available)).
  { unfold default_years.
    destruct (Nat.leb_spec 3 (List.length available)).
    - rewrite length_skipn. lia.
    - lia. }
  split; [|split; [exact Hlen|split]].
  - exists older. split; [exact Hsplit|].
    intros y c Hy Hc. rewrite Hsplit in Hs. clear Hsplit Hlen.
    induction older as [|o older IH]; [destruct Hy|].
    simpl in Hs. inversion Hs as [|? ? Hs' Hall]; subst.
    destruct Hy as [->|Hy]; [|now apply IH].
    rewrite Forall_forall in Hall. apply Hall, in_or_app. now right.
  - intros c Hc. apply in_years_available. fold available.
    rewrite Hsplit. apply in_or_app. now right.
  - intros Hne Hnil. rewrite Hnil in Hlen. simpl in Hlen.
    destruct df as [|r df']; [congruence|].
    assert (Hin : In (year r) available)
      by (apply in_years_available; exists r; split; [now left|reflexivity]).
    destruct available; [destruct Hin|simpl in Hlen; lia].
Qed.

(* ===================================================================== *)
(** ** Further properties: the charts                                     *)
(* ===================================================================== *)

Section Charts.
Context {P : Pandas}.

(** X3. The yearly and the hourly chart list their years and hours in
    strictly ascending order; a year or an hour is listed exactly when a
    row of the filtered table has it, with the number of those rows (an
    hour without posts gets no bar); each chart adds up to the "Total de
    Posts" metric. *)
Theorem X3_yearly_and_hourly_counts
  (df : list Row) (selected_years : list Z) (df' : list Row) (figs : Figures) :
  main (Some df) selected_years = Some (df', figs) ->
  let rows := deref df (filter_years df selected_years) in
  StronglySorted (fun a b => fst a < fst b) (fig1 figs) /\
  (forall y n, In (y, n) (fig1 figs) <->
     n = List.length (filter (fun r => year r =? y) rows) /\ (0 < n)%nat) /\
  list_sum (map snd (fig1 figs)) = total_posts rows /\
  StronglySorted (fun a b => fst a < fst b) (fig2 figs) /\
  (forall h n, In (h, n) (fig2 figs) <->
     n = List.length (filter (fun r => hour r =? h) rows) /\ (0 < n)%nat) /\
  list_sum (map snd (fig2 figs)) = total_posts rows.
Proof.
  intros Hmain rows.
  destruct (main_some _ _ _ _ Hmain) as (_ & _ & _ & _ & -> & -> & _).
  fold rows. unfold yearly_posts, hourly_posts, total_posts.
  destruct (groupby_Z_spec year rows) as (H1 & H2 & H3).
  destruct (groupby_Z_spec hour rows) as (H4 & H5 & H6).
  split; [exact H1|]. split; [exact H2|]. split; [exact H3|].
  split; [exact H4|]. split; [exact H5|exact H6].
Qed.

Lemma heatmap_pivot_size_of data m y :
  heatmap_pivot data m y = size_of pair_compare (y, m) data.
Proof.
  unfold heatmap_pivot. induction data as [|[[a b] n] rest IH]; simpl;
    [reflexivity|].
  rewrite key_eqb_pair. destruct ((a =? y) && (b =? m)); [reflexivity|].
  exact IH.
Qed.

(** X4. A cell of the heatmap holds the number of rows of that year and
    month, 0 when there is none, and the cells listed by the grouping add
    up to the number of rows. *)
Theorem X4_heatmap_cell_is_the_month_count (rows : list Row) (m y : Z) :
  heatmap_pivot (heatmap_data rows) m y
  = List.length (filter (fun r => (year r =? y) && (month r =? m)) rows) /\
  list_sum (map snd (heatmap_data rows)) = List.length rows.
Proof.
  destruct (groupby_pair_spec (fun r => (year r, month r)) rows)
    as (Hs & Hin & Hsum).
  split; [|exact Hsum].
  rewrite heatmap_pivot_size_of. unfold heatmap_data.
  set (n := List.length
              (filter (fun r => (year r =? y) && (month r =? m)) rows)).
  destruct (groupby_size_spec pair_compare pair_compare_eq pair_compare_gt_lt
              pair_compare_lt_trans
              (map (fun r => (year r, month r)) rows)) as (Hs' & _ & _).
  destruct (size_of_in pair_compare pair_compare_eq _ (y, m)
              (size_of pair_compare (y, m)
                 (groupby_size pair_compare
                    (map (fun r => (year r, month r)) rows))) Hs')
    as [_ Hback].
  destruct (size_of pair_compare (y, m)
              (groupby_size pair_compare
                 (map (fun r => (year r, month r)) rows))) as [|k] eqn:E.
  - destruct n as [|n'] eqn:En; [reflexivity|].
    assert (Hx : In ((y, m), S n')
                   (groupby_size pair_compare
                      (map (fun r => (year r, month r)) rows))).
    { apply Hin. simpl. fold n. rewrite En. split; [reflexivity|lia]. }
    destruct (size_of_in pair_compare pair_compare_eq _ (y, m) (S n') Hs')
      as [Hfwd _].
    rewrite (Hfwd Hx) in E. discriminate.
  - assert (Hx : In ((y, m), S k)
                   (groupby_size pair_compare
                      (map (fun r => (year r, month r)) rows)))
      by (apply Hback; [reflexivity|lia]).
    apply Hin in Hx as [Hx _]. simpl in Hx. exact Hx.
Qed.

Lemma heatmap_keys rows y m :
  (exists n, In ((y, m), n) (heatmap_data rows)) <->
  exists r, In r rows /\ year r = y /\ month r = m.
Proof.
  unfold heatmap_data.
  rewrite (groupby_size_key_iff pair_compare pair_compare_eq
             pair_compare_gt_lt pair_compare_lt_trans), in_map_iff.
  split.
  - intros (r & E & Hr). injection E as <- <-. now exists r.
  - intros (r & Hr & <- & <-). now exists r.
Qed.

Lemma in_heatmap_columns rows y :
  In y (heatmap_columns (heatmap_data rows)) <->
  exists r, In r rows /\ year r = y.
Proof.
  unfold heatmap_columns. rewrite in_sorted, in_unique, in_map_iff. split.
  - intros ([[y' m] n] & E & Hin). simpl in E. subst y'.
    destruct (proj1 (heatmap_keys rows y m) (ex_intro _ n Hin))
      as (r & Hr & Hy & _). now exists r.
  - intros (r & Hr & Hy).
    destruct (proj2 (heatmap_keys rows y (month r))) as (n & Hin);
      [now exists r|].
    now exists ((y, month r), n).
Qed.

Lemma in_heatmap_index rows m :
  In m (heatmap_index (heatmap_data rows)) <->
  exists r, In r rows /\ month r = m.
Proof.
  unfold heatmap_index. rewrite in_sorted, in_unique, in_map_iff. split.
  - intros ([[y m'] n] & E & Hin). simpl in E. subst m'.
    destruct (proj1 (heatmap_keys rows y m) (ex_intro _ n Hin))
      as (r & Hr & _ & Hm). now exists r.
  - intros (r & Hr & Hm).
    destruct (proj2 (heatmap_keys rows (year r) m)) as (n & Hin);
      [now exists r|].
    now exists ((year r, m), n).
Qed.

Lemma index_of_nth x l p :
  index_of x l = Some p -> nth_error l p = Some x.
Proof.
  revert p. induction l as [|y tl IH]; simpl; intros p; [discriminate|].
  destruct (Z.eqb_spec y x) as [->|_].
  - intros E. now injection E as <-.
  - destruct (index_of x tl) as [q|]; [|discriminate].
    intros E. injection E as <-. now apply IH.
Qed.

Lemma index_of_in x l : index_of x l <> None <-> In x l.
Proof.
  induction l as [|y tl IH]; simpl; [tauto|].
  destruct (Z.eqb_spec y x) as [->|Hne].
  - split; [now left|discriminate].
  - destruct (index_of x tl); simpl in *; split.
    + intros _. right. apply IH. discriminate.
    + discriminate.
    + congruence.
    + intros [E|H]; [congruence|]. now apply IH.
Qed.

Lemma pandemic_vline_iff rows :
  pandemic_vline (heatmap_data rows) = true <->
  exists r, In r rows /\ year r = 2020.
Proof.
  unfold pandemic_vline. rewrite existsb_exists, <- in_heatmap_columns.
  split.
  - intros (y & Hy & E). apply Z.eqb_eq in E. now subst y.
  - intros H. exists 2020. split; [exact H|reflexivity].
Qed.

(** X5. The vertical line of the heatmap is drawn exactly when a row of
    the filtered table is from 2020; the horizontal line and the
    "Março/2020" annotation are drawn exactly when, besides, some row of
    any year is from a month of March, and they are placed at the
    position of March in the index of the heatmap. *)
Theorem X5_pandemic_markers_of_the_heatmap (rows : list Row) :
  (pandemic_vline (heatmap_data rows) = true <->
     exists r, In r rows /\ year r = 2020) /\
  (pandemic_march (heatmap_data rows) <> None <->
     (exists r, In r rows /\ year r = 2020) /\
     (exists r, In r rows /\ month r = 3)) /\
  (forall p, pandemic_march (heatmap_data rows) = Some p ->
     nth_error (heatmap_index (heatmap_data rows)) p = Some 3).
Proof.
  split; [apply pandemic_vline_iff|]. split.
  - unfold pandemic_march.
    rewrite <- pandemic_vline_iff, <- in_heatmap_index, <- index_of_in.
    destruct (pandemic_vline (heatmap_data rows)); split.
    + intros H. now split.
    + now intros [_ H].
    + congruence.
    + intros [H _]. discriminate.
  - intros p. unfold pandemic_march.
    destruct (pandemic_vline (heatmap_data rows)); [|discriminate].
    apply index_of_nth.
Qed.

(** X6. The weekday chart always has seven bars, Monday first and Sunday
    last, each with the number of rows of that day, 0 for a day without
    posts, and the bars add up to the number of rows. *)
Theorem X6_weekday_chart_has_seven_bars (rows : list Row) :
  List.length (weekday_posts rows) = 7%nat /\
  (forall i d, nth_error weekday_order i = Some d ->
     nth_error (weekday_posts rows) i
     = Some (List.length
               (filter (fun r => Calendar.day_name_eqb (weekday r) d) rows))) /\
  nth_error weekday_order 0 = Some Calendar.Monday /\
  nth_error weekday_order 6 = Some Calendar.Sunday /\
  list_sum (weekday_posts rows) = List.length rows.
Proof.
  split; [reflexivity|]. split; [|split; [reflexivity|split; [reflexivity|]]].
  - intros i d Hi. unfold weekday_posts. now rewrite nth_error_map, Hi.
  - unfold weekday_posts, weekday_order. cbn [map list_sum].
    induction rows as [|r rows IH]; [reflexivity|].
    cbn [filter]. destruct (weekday r);
      cbn [Calendar.day_name_eqb List.length];
      unfold list_sum in *; cbn [fold_right] in *; lia.
Qed.

Lemma groupby_size_nil_iff {K} (cmp : K -> K -> comparison) (keys : list K) :
  groupby_size cmp keys = [] <-> keys = [].
Proof.
  split; [|now intros ->].
  destruct keys as [|k keys]; [reflexivity|]. intros Hnil. exfalso.
  assert (Hlen : forall ks acc, acc <> [] ->
            fold_left (fun acc k => bump cmp k acc) ks acc <> []).
  { induction ks as [|k1 ks IH]; simpl; intros acc Hacc; [exact Hacc|].
    apply IH. destruct acc as [|[k' n] rest]; simpl; [discriminate|].
    destruct (cmp k1 k'); discriminate. }
  apply (Hlen keys (bump cmp k []) ltac:(discriminate)). exact Hnil.
Qed.

Lemma filter_nil_iff {A} (f : A -> bool) (l : list A) :
  filter f l = [] <-> forall x, In x l -> f x = false.
Proof.
  induction l as [|a l IH]; simpl; [tauto|].
  destruct (f a) eqn:E; split.
  - discriminate.
  - intros H. specialize (H a (or_introl eq_refl)). congruence.
  - intros H x [<-|Hx]; [exact E|]. now apply IH.
  - intros H. apply IH. auto.
Qed.

Lemma default_years_in available c :
  In c (default_years available) -> In c available.
Proof.
  unfold default_years. destruct (3 <=? List.length available)%nat; [|auto].
  intros H. rewrite (skipn_app_all (List.length available - 3) available).
  apply in_or_app. now right.
Qed.

Lemma default_years_nil available :
  default_years available = [] -> available = [].
Proof.
  unfold default_years.
  destruct (Nat.leb_spec 3 (List.length available)) as [Hge|Hlt]; [|auto].
  intros Hnil. apply (f_equal (@List.length Z)) in Hnil.
  rewrite length_skipn in Hnil. simpl in Hnil. lia.
Qed.

(** X8. The filtered table has no row exactly when years are selected and
    none of them occurs in the table; only then does the heatmap give way
    to its "no data" notice and the yearly chart come out without a bar.
    With nothing selected the whole table is charted, and with the
    selection the sidebar starts with the heatmap is always drawn. *)
Theorem X8_filtered_charts_are_empty_only_for_absent_years
  (df : list Row) (selected_years : list Z) (df' : list Row) (figs : Figures) :
  main (Some df) selected_years = Some (df', figs) ->
  let rows := deref df (filter_years df selected_years) in
  (rows = [] <->
     selected_years <> [] /\
     forall y, In y selected_years -> ~ In y (years_available df)) /\
  (fig3 figs = None <-> rows = []) /\
  (fig1 figs = [] <-> rows = []) /\
  (selected_years = [] -> rows = df) /\
  (selected_years = default_years (years_available df) -> fig3 figs <> None).
Proof.
  intros Hmain rows.
  destruct (main_some _ _ _ _ Hmain) as (Hne & _ & _ & _ & H1 & _ & H3 & _).
  fold rows in H1, H3.
  assert (Hrows : rows = [] <->
            selected_years <> [] /\
            forall y, In y selected_years -> ~ In y (years_available df)).
  { unfold rows. destruct selected_years as [|y0 ys];
      cbn [filter_years deref].
    - split; [congruence|]. intros [H _]. congruence.
    - rewrite filter_nil_iff. split.
      + intros Hall. split; [discriminate|].
        intros y Hy Hav. apply in_years_available in Hav as (r & Hr & Hyr).
        specialize (Hall r Hr). unfold isin in Hall.
        assert (Ht : existsb (Z.eqb (year r)) (y0 :: ys) = true).
        { apply existsb_exists. exists y. split; [exact Hy|].
          now apply Z.eqb_eq. }
        congruence.
      + intros [_ Hall] r Hr. unfold isin.
        destruct (existsb (Z.eqb (year r)) (y0 :: ys)) eqn:E; [|reflexivity].
        apply existsb_exists in E as (y & Hy & Hyr). apply Z.eqb_eq in Hyr.
        exfalso. apply (Hall y Hy). apply in_years_available.
        exists r. split; [exact Hr|exact Hyr]. }
  assert (Hfig3 : fig3 figs = None <-> rows = []).
  { rewrite H3. unfold heatmap_data.
    destruct (groupby_size pair_compare
                (map (fun r => (year r, month r)) rows)) as [|e es] eqn:E.
    - apply groupby_size_nil_iff in E.
      split; [intros _|reflexivity]. now destruct rows.
    - split; [discriminate|]. intros Hnil. rewrite Hnil in E. discriminate. }
  split; [exact Hrows|]. split; [exact Hfig3|]. split; [|split].
  - rewrite H1. unfold yearly_posts. rewrite groupby_size_nil_iff.
    split; [now destruct rows|now intros ->].
  - intros ->. reflexivity.
  - intros Hsel Hnone. apply Hfig3, Hrows in Hnone as [Hsome Hall].
    destruct selected_years as [|y ys]; [congruence|].
    apply (Hall y (or_introl eq_refl)).
    apply default_years_in. rewrite <- Hsel. now left.
Qed.

Lemma posts_por_mes_keys df :
  flat_map (fun r => match ano_mes r with
                     | Some (Some p) => [p]
                     | _ => []
                     end) (map set_date_ano_mes df)
  = map (fun r => fst (date_ymd (date r))) df.
Proof.
  induction df as [|r df IH]; [reflexivity|].
  cbn [map flat_map]. rewrite IH. unfold set_date_ano_mes at 1.
  now destruct (date_ymd (date r)) as [[y m] d].
Qed.

Lemma main_fig_media_movel df selected_years df' figs :
  main (Some df) selected_years = Some (df', figs) ->
  fig_media_movel figs = (0 <? notna_sum (snd (fig figs)))%nat.
Proof.
  unfold main. destruct df as [|r0 df0]; [discriminate|].
  unfold monthly_step. cbv zeta.
  destruct (pandemic_step (map set_date_ano_mes (r0 :: df0))) as [df2 sz].
  intros H. injection H as <- <-. reflexivity.
Qed.

(** X9. The monthly series is computed from the whole table, whatever
    years are selected: its months come in chronological order without
    repetition, a month is listed exactly when a row has its date in it,
    with the number of those rows, and the points add up to the number of
    rows.  The moving-average line is added to the chart exactly when the
    series has more than three months. *)
Theorem X9_monthly_series_of_the_whole_table
  (df : list Row) (selected_years : list Z) (df' : list Row) (figs : Figures) :
  main (Some df) selected_years = Some (df', figs) ->
  StronglySorted
    (fun a b => fst (fst a) < fst (fst b) \/
                (fst (fst a) = fst (fst b) /\ snd (fst a) < snd (fst b)))
    (fst (fig figs)) /\
  (forall y m n, In ((y, m), n) (fst (fig figs)) <->
     n = List.length
           (filter (fun r => (fst (fst (date_ymd (date r))) =? y)
                             && (snd (fst (date_ymd (date r))) =? m)) df) /\
     (0 < n)%nat) /\
  list_sum (map snd (fst (fig figs))) = List.length df /\
  fig_media_movel figs = (3 <? List.length (fst (fig figs)))%nat /\
  (forall selected_years2 df2 figs2,
     main (Some df) selected_years2 = Some (df2, figs2) ->
     fig figs2 = fig figs).
Proof.
  intros Hmain.
  destruct (main_some _ _ _ _ Hmain) as (_ & _ & _ & Hfig & _).
  pose proof (main_fig_media_movel _ _ _ _ Hmain) as Hline.
  assert (Efig : fig figs =
            (groupby_size pair_compare
               (map (fun r => fst (date_ymd (date r))) df),
             media_movel
               (map snd (groupby_size pair_compare
                           (map (fun r => fst (date_ymd (date r))) df))))).
  { rewrite Hfig. unfold monthly_step, posts_por_mes. cbn [fst snd].
    now rewrite posts_por_mes_keys. }
  rewrite Efig in Hline. rewrite Efig. cbn [fst snd] in *.
  destruct (groupby_pair_spec (fun r => fst (date_ymd (date r))) df)
    as (Hs & Hin & Hsum).
  split; [exact Hs|]. split; [exact Hin|]. split; [exact Hsum|]. split.
  - rewrite Hline, media_movel_notna_sum, length_map.
    destruct (Nat.ltb_spec 3
                (List.length
                   (groupby_size pair_compare
                      (map (fun r => fst (date_ymd (date r))) df))))
      as [Hlong|Hshort].
    + transitivity true; [apply Nat.ltb_lt; lia|].
      symmetry. apply Nat.ltb_lt. exact Hlong.
    + symmetry. apply Nat.ltb_ge. exact Hshort.
  - intros sel2 df2 figs2 H2.
    destruct (main_some _ _ _ _ H2) as (_ & _ & _ & -> & _).
    now rewrite <- Hfig.
Qed.

(** X10. For a table that [load_data] returned the monthly series holds
    the same (year, month) cells with the same counts as the heatmap of
    the unfiltered table: with nothing selected the two charts show the
    same numbers. *)
Theorem X10_monthly_series_is_the_unfiltered_heatmap
  (current_year : Z) (csv : Raw.frame + string) (msgs : list st_msg)
  (table : list Row) (selected_years : list Z) (df' : list Row)
  (figs : Figures) :
  load_data current_year csv = (msgs, Some table) ->
  main (Some table) selected_years = Some (df', figs) ->
  fst (fig figs) = heatmap_data table /\
  (selected_years = [] -> fig3 figs = Some (fst (fig figs))).
Proof.
  intros Hload Hmain.
  destruct (main_some _ _ _ _ Hmain) as (Hne & _ & _ & Hfig & _ & _ & H3 & _).
  assert (E : fst (fig figs) = heatmap_data table).
  { rewrite Hfig. unfold monthly_step, posts_por_mes, heatmap_data.
    cbn [fst snd]. rewrite posts_por_mes_keys. f_equal.
    apply map_ext_in. intros r Hr.
    destruct (cleaned_row_origin _ _ _ _ _ Hload Hr)
      as (df & raw & t & _ & _ & _ & _ & _ & _ & _ & _ & _ & Hy & Hm & _ & _ & Hd & _).
    now rewrite Hd, Hy, Hm. }
  split; [exact E|]. intros ->. rewrite H3, E. cbn [filter_years deref].
  destruct (heatmap_data table) eqn:Eh; [|reflexivity].
  apply groupby_size_nil_iff in Eh. destruct table; [congruence|discriminate].
Qed.

Lemma fold_max_spec ys y :
  In (fold_left Z.max ys y) (y :: ys) /\
  forall x, In x (y :: ys) -> x <= fold_left Z.max ys y.
Proof.
  revert y. induction ys as [|a ys IH]; intros y; simpl.
  - split; [now left|]. intros x [<-|[]]. lia.
  - destruct (IH (Z.max y a)) as [Hin Hle]. split.
    + destruct Hin as [E|Hin]; [|now right; right].
      rewrite <- E. destruct (Z.max_spec y a) as [[_ ->]|[_ ->]]; auto.
    + intros x [E|[E|Hx]].
      * specialize (Hle (Z.max y a) (or_introl eq_refl)). lia.
      * specialize (Hle (Z.max y a) (or_introl eq_refl)). lia.
      * apply Hle. now right.
Qed.

Lemma fold_min_spec ys y :
  In (fold_left Z.min ys y) (y :: ys) /\
  forall x, In x (y :: ys) -> fold_left Z.min ys y <= x.
Proof.
  revert y. induction ys as [|a ys IH]; intros y; simpl.
  - split; [now left|]. intros x [<-|[]]. lia.
  - destruct (IH (Z.min y a)) as [Hin Hle]. split.
    + destruct Hin as [E|Hin]; [|now right; right].
      rewrite <- E. destruct (Z.min_spec y a) as [[_ ->]|[_ ->]]; auto.
    + intros x [E|[E|Hx]].
      * specialize (Hle (Z.min y a) (or_introl eq_refl)). lia.
      * specialize (Hle (Z.min y a) (or_introl eq_refl)). lia.
      * apply Hle. now right.
Qed.

Lemma filter_length_bound {A} (f : A -> bool) (l : list A) :
  (List.length (filter f l) <= List.length l)%nat.
Proof.
  induction l as [|a l IH]; simpl; [lia|]. destruct (f a); simpl; lia.
Qed.

Lemma nodup_length_bound {A} (dec : forall a b : A, {a = b} + {a <> b})
      (l : list A) :
  (List.length (nodup dec l) <= List.length l)%nat.
Proof.
  induction l as [|a l IH]; simpl; [lia|].
  destruct (in_dec dec a l); simpl; lia.
Qed.

(** A strictly ascending list of integers between [lo] and [hi] has at
    most [hi - lo + 1] elements. *)
Lemma ascending_length_bound l lo hi :
  StronglySorted Z.lt l -> lo <= hi + 1 ->
  (forall x, In x l -> lo <= x <= hi) ->
  Z.of_nat (List.length l) <= hi - lo + 1.
Proof.
  revert lo. induction l as [|a l IH]; intros lo Hs Hlo Hall.
  - simpl. lia.
  - inversion Hs as [|? ? Hs' Ha]; subst. rewrite Forall_forall in Ha.
    assert (lo <= a <= hi) by (apply Hall; now left).
    assert (Z.of_nat (List.length l) <= hi - (a + 1) + 1).
    { apply IH; [exact Hs'|lia|].
      intros x Hx. specialize (Ha x Hx).
      assert (lo <= x <= hi) by (apply Hall; now right). lia. }
    cbn [List.length]. lia.
Qed.

Lemma years_span_spec rows :
  rows <> [] ->
  exists rmin rmax,
    In rmin rows /\ In rmax rows /\
    (forall r, In r rows -> year rmin <= year r <= year rmax) /\
    years_span rows = year rmax - year rmin + 1.
Proof.
  intros Hne. unfold years_span. destruct rows as [|r0 rows]; [congruence|].
  cbn [map].
  destruct (fold_max_spec (map year rows) (year r0)) as [Hmax Hle].
  destruct (fold_min_spec (map year rows) (year r0)) as [Hmin Hge].
  change (year r0 :: map year rows) with (map year (r0 :: rows)) in *.
  apply in_map_iff in Hmax as (rmax & Emax & Hrmax).
  apply in_map_iff in Hmin as (rmin & Emin & Hrmin).
  exists rmin, rmax. split; [exact Hrmin|]. split; [exact Hrmax|]. split.
  - intros r Hr. split.
    + rewrite Emin. apply Hge. now apply in_map.
    + rewrite Emax. apply Hle. now apply in_map.
  - now rewrite Emax, Emin.
Qed.

(** X11. The metrics of the page, for a table [load_data] returned and any
    selection: the unique users are at most the total of posts, which is
    at most the number of rows of the table; the period is 0 only for an
    empty selection result and otherwise the distance between the oldest
    and the newest year of the filtered rows plus one, at least 1 and at
    most current_year - 2008; the yearly chart never has more bars than
    the period. *)
Theorem X11_page_metrics
  (current_year : Z) (csv : Raw.frame + string) (msgs : list st_msg)
  (table : list Row) (selected_years : list Z) :
  load_data current_year csv = (msgs, Some table) ->
  let rows := deref table (filter_years table selected_years) in
  (unique_users rows <= total_posts rows <= List.length table)%nat /\
  (rows = [] -> years_span rows = 0) /\
  (rows <> [] ->
     1 <= years_span rows <= current_year - 2008 /\
     exists rmin rmax,
       In rmin rows /\ In rmax rows /\
       (forall r, In r rows -> year rmin <= year r <= year rmax) /\
       years_span rows = year rmax - year rmin + 1) /\
  Z.of_nat (List.length (yearly_posts rows)) <= years_span rows.
Proof.
  intros Hload rows.
  assert (Hsub : forall r, In r rows -> In r table).
  { intros r. unfold rows. destruct selected_years as [|y ys];
      cbn [filter_years deref]; [auto|]. intros H. now apply filter_In in H. }
  assert (Hrange : forall r, In r rows ->
                             2010 <= year r <= current_year + 1).
  { intros r Hr.
    destruct (cleaned_row_origin _ _ _ _ _ Hload (Hsub r Hr))
      as (df & raw & t & _ & _ & _ & _ & _ & _ & _ & _ & _ & _ & _ & _ & _ & _ & H).
    now apply year_in_range_spec. }
  split; [|split; [|split]].
  - unfold unique_users, total_posts. split.
    + etransitivity; [apply nodup_length_bound|].
      etransitivity; [apply filter_length_bound|]. now rewrite length_map.
    + unfold rows. destruct selected_years as [|y ys];
        cbn [filter_years deref]; [lia|apply filter_length_bound].
  - now intros ->.
  - intros Hne.
    destruct (years_span_spec rows Hne) as (rmin & rmax & Hmin & Hmax & Hall & E).
    split; [|now exists rmin, rmax].
    pose proof (Hall rmin Hmin). pose proof (Hrange rmin Hmin).
    pose proof (Hrange rmax Hmax). lia.
  - destruct rows as [|r0 rows'] eqn:Erows; [reflexivity|].
    rewrite <- Erows in *.
    assert (Hne : rows <> []) by (rewrite Erows; discriminate).
    destruct (years_span_spec rows Hne) as (rmin & rmax & Hmin & Hmax & Hall & E).
    rewrite E, <- (length_map fst).
    destruct (groupby_Z_spec year rows) as (Hs & Hin & _).
    apply ascending_length_bound.
    + now apply ascending_map_fst.
    + pose proof (Hall rmin Hmin). lia.
    + intros y Hy. apply in_map_iff in Hy as ([y' n] & Ey & Hy).
      simpl in Ey. subst y'. apply Hin in Hy as [-> Hpos].
      apply filter_length_pos in Hpos as (r & Hr & Hyr).
      apply Z.eqb_eq in Hyr. subst y. now apply Hall.
Qed.

(** X12. What [load_data] shows and returns: a table is returned exactly
    when the file was read, has a timestamp column, at least one line that
    is not a header parses, and [.dt] is available on the parsed column;
    it is announced by one success message that carries its number of
    rows.  A file without the timestamp column ends in the load error
    before the "processing" message, and a file without lines ends in the
    "no valid timestamp" error. *)
Theorem X12_load_data_outcomes (current_year : Z) (csv : Raw.frame + string) :
  (snd (load_data current_year csv) <> None <->
     exists df,
       csv = inl df /\ Raw.has_timestamp df = true /\
       filter notna (map (parse_row df) (filter not_header (Raw.rows df)))
         <> [] /\
       dt_accessor
         (stamps (filter notna (map (parse_row df)
                                  (filter not_header (Raw.rows df))))) = true) /\
  (forall table,
     snd (load_data current_year csv) = Some table ->
     fst (load_data current_year csv)
     = [Write_processing; Success_loaded (List.length table)]) /\
  (snd (load_data current_year csv) = None ->
     (exists e, fst (load_data current_year csv) = [Error_load e]) \/
     fst (load_data current_year csv)
       = [Write_processing; Error_load AttributeError_dt] \/
     fst (load_data current_year csv)
       = [Write_processing; Error_no_valid_timestamp]) /\
  (forall df,
     csv = inl df -> Raw.has_timestamp df = false ->
     load_data current_year csv
     = ([Error_load (KeyError "timestamp")], None)) /\
  (forall df,
     csv = inl df -> Raw.has_timestamp df = true -> Raw.rows df = [] ->
     load_data current_year csv
     = ([Write_processing; Error_no_valid_timestamp], None)).
Proof.
  split; [|split; [|split; [|split]]].
  - split.
    + destruct (load_data current_year csv) as [msgs [table|]] eqn:E;
        [|intros H; now destruct H].
      intros _. destruct (load_data_some _ _ _ _ E) as (df & -> & Hts & _).
      exists df. split; [reflexivity|]. split; [exact Hts|].
      rewrite load_data_eq in E. rewrite Hts in E. cbn [negb] in E.
      cbv zeta in E.
      destruct (filter notna (map (parse_row df)
                                (filter not_header (Raw.rows df))))
        as [|p ps]; [discriminate|].
      split; [discriminate|].
      destruct (dt_accessor (stamps (p :: ps))); [reflexivity|discriminate].
    + intros (df & -> & Hts & Hne & Hdt). rewrite load_data_eq.
      rewrite Hts. cbn [negb]. cbv zeta.
      destruct (filter notna (map (parse_row df)
                                (filter not_header (Raw.rows df))))
        as [|p ps]; [congruence|].
      rewrite Hdt. discriminate.
  - intros table Ht.
    destruct (load_data current_year csv) as [msgs o] eqn:E.
    simpl in Ht. subst o.
    destruct (load_data_some _ _ _ _ E) as (df & _ & _ & _ & ->).
    reflexivity.
  - rewrite load_data_eq.
    destruct csv as [df|msg]; [|intros _; left; eexists; reflexivity].
    destruct (Raw.has_timestamp df); cbn [negb];
      [|intros _; left; eexists; reflexivity].
    cbv zeta.
    destruct (filter notna (map (parse_row df)
                              (filter not_header (Raw.rows df))))
      as [|p ps]; [intros _; right; right; reflexivity|].
    destruct (dt_accessor (stamps (p :: ps))); cbn [negb fst snd];
      [intros Hsome; discriminate Hsome|intros _; right; left; reflexivity].
  - intros df -> Hts. rewrite load_data_eq. now rewrite Hts.
  - intros df -> Hts Hrows. rewrite load_data_eq. rewrite Hts, Hrows.
    reflexivity.
Qed.

Lemma cleaned_pairs current_year df rows :
  map (fun r => (timestamp r, username r))
    (map ensure_numeric
       (filter (year_in_range current_year)
          (flat_map derive
             (filter notna (map (parse_row df) (filter not_header rows))))))
  = map (fun raw => (RawTs (Raw.timestamp raw), Raw.username raw))
      (filter (fun raw => survives current_year (Raw.timestamp raw)) rows).
Proof.
  induction rows as [|raw rows IH]; [reflexivity|].
  cbn [filter map]. unfold survives at 1.
  destruct (not_header raw) eqn:Hh.
  - cbn [map filter]. unfold notna at 1. cbn [parse_row p_timestamp_parsed].
    destruct (parse_timestamp (Raw.timestamp raw)) as [|t] eqn:Hp; [exact IH|].
    cbn [flat_map]. unfold derive at 1.
    cbn [parse_row p_timestamp_parsed p_raw]. rewrite Hp.
    cbn [app filter]. unfold year_in_range at 1. cbn [year].
    destruct ((2010 <=? ts_year t) && (ts_year t <=? current_year + 1));
      cbn [map timestamp username ensure_numeric]; [f_equal|]; exact IH.
  - unfold not_header in Hh.
    destruct (Raw.timestamp raw) as [|s0] eqn:Hc; [discriminate|].
    apply negb_false_iff, String.eqb_eq in Hh. subst s0.
    rewrite parse_header_is_NaT. exact IH.
Qed.

(** X13. The cleaned table keeps the lines of the file in their order:
    its rows are the lines whose timestamp parses to a year in range, each
    with the timestamp text and the username of its own line, unchanged;
    so it never has more rows than the file has lines, and the success
    message reports its length. *)
Theorem X13_cleaned_rows_keep_file_order_and_username
  (current_year : Z) (df : Raw.frame) (msgs : list st_msg) (table : list Row) :
  load_data current_year (inl df) = (msgs, Some table) ->
  map (fun r => (timestamp r, username r)) table
  = map (fun raw => (RawTs (Raw.timestamp raw), Raw.username raw))
      (filter (fun raw => survives current_year (Raw.timestamp raw))
              (Raw.rows df)) /\
  (List.length table <= List.length (Raw.rows df))%nat /\
  msgs = [Write_processing; Success_loaded (List.length table)].
Proof.
  intros Hload.
  destruct (load_data_some _ _ _ _ Hload) as (df' & E & _ & Ht & Hm).
  injection E as <-.
  assert (Hpairs : map (fun r => (timestamp r, username r)) table
            = map (fun raw => (RawTs (Raw.timestamp raw), Raw.username raw))
                (filter (fun raw => survives current_year (Raw.timestamp raw))
                        (Raw.rows df)))
    by (rewrite Ht; apply cleaned_pairs).
  split; [exact Hpairs|]. split; [|exact Hm].
  apply (f_equal (@List.length _)) in Hpairs. rewrite !length_map in Hpairs.
  rewrite Hpairs. apply filter_length_bound.
Qed.

End Charts.

(* ===================================================================== *)
(** ** Concrete runs of the further properties                            *)
(* ===================================================================== *)

(** Five years in the table: the three most recent are preselected. *)
Lemma X2_witness :
  default_years (years_available (table_of five_years)) = [2020; 2021; 2022] /\
  List.length (default_years (years_available (table_of five_years)))
  = Nat.min 3 (List.length (years_available (table_of five_years))) /\
  default_years (years_available (table_of five_years)) <> [].
Proof.
  split; [reflexivity|].
  destruct (X2_default_years_are_the_most_recent (table_of five_years))
    as (_ & Hlen & _ & Hne).
  split; [exact Hlen|]. apply Hne. discriminate.
Defined.

Lemma X3_witness :
  option_map (fun out => (fig1 (snd out), list_sum (map snd (fig1 (snd out)))))
    (main (P:=Reference.pandas) (Some (table_of five_years)) [2020; 2022])
  = Some ([(2020, 2%nat); (2022, 1%nat)], 3%nat).
Proof.
  destruct (main (P:=Reference.pandas) (Some (table_of five_years)) [2020; 2022])
    as [[df' figs]|] eqn:E; [|vm_compute in E; discriminate E].
  destruct (@X3_yearly_and_hourly_counts Reference.pandas _ _ _ _ E)
    as (_ & _ & Hsum & _).
  cbn [option_map snd]. rewrite Hsum.
  vm_compute in E. injection E as _ <-. reflexivity.
Defined.

(** Posts in March 2019 and in May 2020, none in March 2020: the
    annotation is drawn, at the first row of the heatmap. *)
Lemma X5_witness :
  pandemic_march (heatmap_data (table_of march_elsewhere)) = Some 0%nat /\
  nth_error (heatmap_index (heatmap_data (table_of march_elsewhere))) 0
  = Some 3 /\
  heatmap_pivot (heatmap_data (table_of march_elsewhere)) 3 2020 = 0%nat.
Proof.
  split; [reflexivity|]. split; [|reflexivity].
  destruct (X5_pandemic_markers_of_the_heatmap (table_of march_elsewhere))
    as (_ & _ & Hpos).
  apply Hpos. reflexivity.
Defined.

Lemma X6_witness :
  nth_error (weekday_posts (table_of four_dates)) 6
  = Some (List.length
            (filter (fun r => Calendar.day_name_eqb (weekday r) Calendar.Sunday)
                    (table_of four_dates))) /\
  weekday_posts (table_of four_dates)
  = [0; 2; 0; 0; 0; 1; 1]%nat.
Proof.
  split; [|reflexivity].
  destruct (X6_weekday_chart_has_seven_bars (table_of four_dates))
    as (_ & Hbar & _).
  apply Hbar. reflexivity.
Defined.

(** A year that is not in the table: the heatmap gives way to its
    notice. *)
Lemma X8_witness :
  option_map (fun out => fig3 (snd out))
    (main (P:=Reference.pandas) (Some (table_of four_dates)) [1999])
  = Some None.
Proof.
  destruct (main (P:=Reference.pandas) (Some (table_of four_dates)) [1999])
    as [[df' figs]|] eqn:E; [|vm_compute in E; discriminate E].
  destruct (@X8_filtered_charts_are_empty_only_for_absent_years
              Reference.pandas _ _ _ _ E) as (_ & (_ & Hnone) & _).
  cbn [option_map snd]. f_equal. apply Hnone. reflexivity.
Defined.

Lemma X9_witness :
  option_map (fun out => list_sum (map snd (fst (fig (snd out)))))
    (main (P:=Reference.pandas) (Some (table_of five_months)) [2021])
  = Some (List.length (table_of five_months)) /\
  List.length (table_of five_months) = 8%nat.
Proof.
  split; [|reflexivity].
  destruct (main (P:=Reference.pandas) (Some (table_of five_months)) [2021])
    as [[df' figs]|] eqn:E; [|vm_compute in E; discriminate E].
  destruct (@X9_monthly_series_of_the_whole_table
              Reference.pandas _ _ _ _ E) as (_ & _ & Hsum & _).
  cbn [option_map snd]. f_equal. exact Hsum.
Defined.

Lemma X10_witness :
  option_map (fun out => fst (fig (snd out)))
    (main (P:=Reference.pandas) (Some (table_of five_years)) [2020])
  = Some (heatmap_data (table_of five_years)).
Proof.
  destruct (main (P:=Reference.pandas) (Some (table_of five_years)) [2020])
    as [[df' figs]|] eqn:E; [|vm_compute in E; discriminate E].
  cbn [option_map snd]. f_equal.
  refine (proj1 (@X10_monthly_series_is_the_unfiltered_heatmap
                   Reference.pandas 2026 (inl five_years)
                   [Write_processing; Success_loaded 6]
                   (table_of five_years) [2020] df' figs _ E)).
  reflexivity.
Defined.

Lemma X11_witness :
  (unique_users (table_of five_years) <= total_posts (table_of five_years)
   <= List.length (table_of five_years))%nat /\
  years_span (table_of five_years) = 5 /\
  Z.of_nat (List.length (yearly_posts (table_of five_years)))
  <= years_span (table_of five_years).
Proof.
  destruct (@X11_page_metrics Reference.pandas 2026 (inl five_years)
              [Write_processing; Success_loaded 6] (table_of five_years) [])
    as (Husers & _ & _ & Hbars); [reflexivity|].
  split; [exact Husers|]. split; [reflexivity|exact Hbars].
Defined.

Lemma X12_witness :
  load_data (P:=Reference.pandas) 2026 (inl no_timestamp_column)
  = ([Error_load (KeyError "timestamp")], None).
Proof.
  destruct (@X12_load_data_outcomes Reference.pandas 2026
              (inl no_timestamp_column)) as (_ & _ & _ & Hkey & _).
  apply (Hkey no_timestamp_column); reflexivity.
Defined.

Lemma X13_witness :
  map (fun r => (timestamp r, username r)) (table_of with_header_and_old)
  = [ (RawTs (Str "2019-01-01"), Str "ana");
      (RawTs (Str "2021-06-01T08:00:00"), Str "ana") ] /\
  (List.length (table_of with_header_and_old)
   <= List.length (Raw.rows with_header_and_old))%nat.
Proof.
  destruct (@X13_cleaned_rows_keep_file_order_and_username
              Reference.pandas 2026 with_header_and_old
              [Write_processing; Success_loaded 2]
              (table_of with_header_and_old)) as (Hpairs & Hlen & _);
    [reflexivity|].
  split; [rewrite Hpairs; reflexivity|exact Hlen].
Defined.
